(** * pseo-card-site: the site generators [update_site.py] and [generate.py]

    A shallow embedding of the two Python scripts of the repository and the
    properties of their natural-language specification.

    Python [str] values are sequences of Unicode code points and are modelled
    as [list N]; dictionaries that are only read by key are [gmap]s, and
    dictionaries whose iteration order is observable are association lists. *)

From Stdlib Require Import String Ascii.
From stdpp Require Import gmap list sorting.

Local Open Scope N_scope.

(** A Python [str]: its code points, in order. *)
Abbreviation str := (list N).

(** ** Literals

    The source's string literals are written here as Rocq strings; a Rocq
    string holds the UTF-8 bytes of the file, which [u] decodes into code
    points.  [utf8_decode] is only ever applied to literals of this file. *)

Fixpoint utf8_decode (bs : list N) : str :=
  match bs with
  | [] => []
  | b0 :: r0 =>
    if b0 <? 128 then b0 :: utf8_decode r0
    else if b0 <? 224 then
      match r0 with
      | b1 :: r1 =>
        N.lor (N.shiftl (N.land b0 31) 6) (N.land b1 63) :: utf8_decode r1
      | _ => []
      end
    else if b0 <? 240 then
      match r0 with
      | b1 :: b2 :: r2 =>
        N.lor (N.shiftl (N.land b0 15) 12)
          (N.lor (N.shiftl (N.land b1 63) 6) (N.land b2 63)) :: utf8_decode r2
      | _ => []
      end
    else
      match r0 with
      | b1 :: b2 :: b3 :: r3 =>
        N.lor (N.shiftl (N.land b0 7) 18)
          (N.lor (N.shiftl (N.land b1 63) 12)
             (N.lor (N.shiftl (N.land b2 63) 6) (N.land b3 63))) :: utf8_decode r3
      | _ => []
      end
  end.

Fixpoint bytes_of_string (s : string) : list N :=
  match s with
  | EmptyString => []
  | String a r => N_of_ascii a :: bytes_of_string r
  end.

Definition u (s : string) : str := utf8_decode (bytes_of_string s).
Global Arguments u : simpl never.

(** The line feed, which [join] puts between items. *)
Definition nl : str := [10].

(** ** The Python built-ins the scripts call *)

Module Py.

(** [Py_UNICODE_ISSPACE]: the code points that [str.strip()] removes and that
    [\s] matches in a [str] pattern. *)
Definition isspace (c : N) : bool :=
  ((9 <=? c) && (c <=? 13)) || ((28 <=? c) && (c <=? 32))
  || (c =? 133) || (c =? 160) || (c =? 5760)
  || ((8192 <=? c) && (c <=? 8202))
  || (c =? 8232) || (c =? 8233) || (c =? 8239) || (c =? 8287) || (c =? 12288).

Fixpoint lstrip (s : str) : str :=
  match s with
  | c :: r => if isspace c then lstrip r else s
  | [] => []
  end.

Definition rstrip (s : str) : str := reverse (lstrip (reverse s)).

(** [s.strip()] *)
Definition strip (s : str) : str := rstrip (lstrip s).

(** The line boundaries of [str.splitlines()], [\r\n] apart:
    [\n \v \f \r \x1c \x1d \x1e \x85 \u2028 \u2029]. *)
Definition islinebreak (c : N) : bool :=
  ((10 <=? c) && (c <=? 13)) || ((28 <=? c) && (c <=? 30))
  || (c =? 133) || (c =? 8232) || (c =? 8233).

(** [s.splitlines()], with [cur] the current line, reversed.  [\r\n] is one
    boundary; no empty last line is produced after a final boundary. *)
Fixpoint splitlines_from (cur : str) (s : str) : list str :=
  match s with
  | [] => match cur with [] => [] | _ => [reverse cur] end
  | c :: r =>
    if islinebreak c then
      match r with
      | c' :: r' =>
        if (c =? 13) && (c' =? 10)
        then reverse cur :: splitlines_from [] r'
        else reverse cur :: splitlines_from [] r
      | [] => [reverse cur]
      end
    else splitlines_from (c :: cur) r
  end.

Definition splitlines (s : str) : list str := splitlines_from [] s.

(** [sep in s] for a one-character [sep]. *)
Definition contains (sep : N) (s : str) : bool := existsb (N.eqb sep) s.

(** [s.split(sep, 1)] for a one-character [sep] that occurs in [s]: the text
    before the first [sep] and the text after it.  Without a [sep] the result
    is [(s, [])]; the scripts only call it where [sep] occurs. *)
Fixpoint split1 (sep : N) (s : str) : str * str :=
  match s with
  | [] => ([], [])
  | c :: r =>
    if c =? sep then ([], r)
    else let '(a, b) := split1 sep r in (c :: a, b)
  end.

(** [s.split(sep)] for a one-character [sep]: always at least one piece. *)
Fixpoint split (sep : N) (s : str) : list str :=
  match s with
  | [] => [[]]
  | c :: r =>
    if c =? sep then [] :: split sep r
    else match split sep r with
         | p :: ps => (c :: p) :: ps
         | [] => [[c]]
         end
  end.

(** [sep.join(parts)] *)
Fixpoint join (sep : str) (parts : list str) : str :=
  match parts with
  | [] => []
  | [p] => p
  | p :: ps => p ++ sep ++ join sep ps
  end.

(** [s.startswith(p)] and [s.endswith(p)] *)
Fixpoint startswith (p s : str) : bool :=
  match p, s with
  | [], _ => true
  | a :: p', b :: s' => (a =? b) && startswith p' s'
  | _ :: _, [] => false
  end.

Definition endswith (p s : str) : bool := startswith (reverse p) (reverse s).

(** [sub in s] *)
Fixpoint in_str (sub s : str) : bool :=
  startswith sub s ||
  match s with
  | [] => false
  | _ :: r => in_str sub r
  end.



(** [s.replace(old, new)]: the non-overlapping occurrences of [old], found
    from the left, are replaced.  [skip] counts the characters of a matched
    occurrence that are still to be dropped. *)
Fixpoint replace_from (skip : nat) (old new s : str) : str :=
  match s with
  | [] => []
  | c :: r =>
    match skip with
    | S k => replace_from k old new r
    | O =>
      if startswith old s
      then new ++ replace_from (pred (length old)) old new r
      else c :: replace_from O old new r
    end
  end.

(** With an empty [old], Python puts [new] before every character and at
    the end. *)
Definition replace (old new s : str) : str :=
  match old with
  | [] => new ++ flat_map (fun c => c :: new) s
  | _ => replace_from O old new s
  end.

(** Comparison of two [str]: lexicographic on code points. *)
Fixpoint compare (a b : str) : comparison :=
  match a, b with
  | [], [] => Eq
  | [], _ :: _ => Lt
  | _ :: _, [] => Gt
  | x :: a', y :: b' =>
    match N.compare x y with
    | Eq => compare a' b'
    | o => o
    end
  end.

(** [a < b] on [str] *)
Definition ltb (a b : str) : bool :=
  match compare a b with Lt => true | _ => false end.

Section Sort.
Context {A : Type} (key : A -> str).

(** A stable ascending insertion: [x], which stood before all of [l],
    stays before the elements whose key is not smaller. *)
Fixpoint insert_asc (x : A) (l : list A) : list A :=
  match l with
  | [] => [x]
  | y :: l' =>
    if ltb (key y) (key x) then y :: insert_asc x l' else x :: l
  end.

Definition sort_asc (l : list A) : list A := foldr insert_asc [] l.

(** [l.sort(key=key, reverse=rv)].  The sort is stable; with
    [reverse=True] CPython reverses the list, sorts it ascending and
    reverses it again, which keeps equal keys in their original order. *)
Definition sort (rv : bool) (l : list A) : list A :=
  if rv then reverse (sort_asc (reverse l)) else sort_asc l.
End Sort.

(** [str(n)] for a non-negative integer: its decimal digits.  A number
    has no more decimal digits than binary ones, which bounds the loop. *)
Definition digit (d : N) : N := 48 + d.

Fixpoint str_of_N_fuel (fuel : nat) (n : N) (acc : str) : str :=
  match fuel with
  | O => acc
  | S f =>
    let acc' := digit (n mod 10) :: acc in
    if n / 10 =? 0 then acc' else str_of_N_fuel f (n / 10) acc'
  end.

Definition str_of_N (n : N) : str := str_of_N_fuel (S (N.size_nat n)) n [].

(** The fields of [strftime]: [%m], [%d], [%H] and [%M] are two digits,
    [%Y] is four (the years of a [datetime] lie between 1 and 9999). *)
Definition two_digits (n : N) : str :=
  [digit (n / 10 mod 10); digit (n mod 10)].

Definition four_digits (n : N) : str :=
  [digit (n / 1000 mod 10); digit (n / 100 mod 10);
   digit (n / 10 mod 10); digit (n mod 10)].

End Py.

(** [a <= b] on [str]: not [b < a]. *)
Definition str_le (a b : str) : Prop := Py.ltb b a = false.

Section KeyOrder.

Context {A : Type} (key : A -> str).

(** [x] does not come after [y]: its key is not larger. *)
Definition key_le (x y : A) : Prop := str_le (key x) (key y).

End KeyOrder.

(** A text that does not begin with white space. *)
Definition starts_clean (s : str) : Prop :=
  match s with
  | c :: _ => Py.isspace c = false
  | [] => True
  end.


(** A literal written with ['] where the source has a double quote (a Rocq
    string cannot hold one undoubled); none of the source's literals that
    are written this way contains an apostrophe. *)
Definition uq (s : string) : str :=
  map (fun c => if c =? 39 then 34 else c) (u s).
Global Arguments uq : simpl never.

(** * update_site.py *)

Definition BASE_URL : str := u "https://compare-aything.com".
Definition PAGES_DIR : str := u "pages".
Definition INDEX_FILE : str := u "index.html".
Definition SITEMAP_FILE : str := u "sitemap.xml".
Definition TAGS_DIR : str := u "tags".

(** ** The pattern [<!--\s*META(.*?)-->] under [re.IGNORECASE | re.DOTALL] *)

(** [s] with the literal [p] taken off its head. *)
Fixpoint strip_prefix (p s : str) : option str :=
  match p, s with
  | [], _ => Some s
  | a :: p', b :: s' => if a =? b then strip_prefix p' s' else None
  | _ :: _, [] => None
  end.

(** A pattern letter matches a character when both have the same lower
    case.  For the letters of [META] the only characters that do are their
    two ASCII forms, which is what [ascii_fold] decides. *)
Definition ascii_fold (c : N) : N :=
  if (65 <=? c) && (c <=? 90) then c + 32 else c.

Fixpoint strip_prefix_ci (p s : str) : option str :=
  match p, s with
  | [], _ => Some s
  | a :: p', b :: s' =>
    if ascii_fold a =? ascii_fold b then strip_prefix_ci p' s' else None
  | _ :: _, [] => None
  end.

(** The lazy [(.*?)] followed by a literal: the text before the first
    occurrence of [pat], and the text after it. *)
Fixpoint find_first (pat s : str) : option (str * str) :=
  if Py.startswith pat s then Some ([], drop (length pat) s)
  else match s with
       | [] => None
       | c :: r =>
         match find_first pat r with
         | Some (a, b) => Some (c :: a, b)
         | None => None
         end
       end.

(** A match that starts at the head of [s]; the result is group 1.  The
    greedy [\s*] takes all the white space: [META] cannot start on one. *)
Definition match_meta (s : str) : option str :=
  s1 ← strip_prefix (u "<!--") s;
  s2 ← strip_prefix_ci (u "META") (Py.lstrip s1);
  fst <$> find_first (u "-->") s2.

(** [re.search]: the match at the leftmost position that has one. *)
Fixpoint search_meta (s : str) : option str :=
  match match_meta s with
  | Some block => Some block
  | None =>
    match s with
    | [] => None
    | _ :: r => search_meta r
    end
  end.

(** *** The metadata block, in the words of the specification

    [s] begins with a metadata block: the opening of a comment, white
    space, the marker in any case, the content [block], and the closing
    [-->], which does not begin anywhere inside [block]. *)
Definition is_marker (m : str) : Prop :=
  Forall2 (fun a b => ascii_fold a = ascii_fold b) (u "META") m.

Definition block_at_head (s block rest : str) : Prop :=
  exists ws m,
    s = u "<!--" ++ ws ++ m ++ block ++ u "-->" ++ rest /\
    Forall (fun c => Py.isspace c = true) ws /\
    is_marker m /\
    (forall b1 b2, block = b1 ++ b2 -> b2 <> [] ->
       Py.startswith (u "-->") (b2 ++ u "-->" ++ rest) = false).

(** [text] holds a metadata block after [pre]. *)
Definition block_after (text pre block : str) : Prop :=
  exists s rest, text = pre ++ s /\ block_at_head s block rest.

(** ** Files, pages and the run-time environment *)

(** A file below the content root, as [os.walk] hands it over: the
    directories between the root and the file, its name, the text that
    [read_text(encoding="utf-8", errors="ignore")] returns for it and the
    time of its last modification, in nanoseconds since the epoch (the
    script reads it as the float [st_mtime]). *)
Record File := {
  f_dir : list str;
  f_name : str;
  f_text : str;
  f_mtime : Z;
}.

(** The dictionary [get_page_info] returns. *)
Record Page := {
  path : str;
  rel_path : str;
  url_path : str;
  url : str;
  title : str;
  description : str;
  tags : list str;
  category : str;
  date : str;
}.

Global Instance Page_eq_dec : EqDecision Page.
Proof. solve_decision. Defined.

(** [datetime.utcnow()], to the minute. *)
Record utc_time := {
  year : N; month : N; day : N; hour : N; minute : N;
}.

(** [PurePath.stem]: the name up to its last dot, unless that dot is the
    first or the last character. *)
Fixpoint rfind_from (i : nat) (c : N) (s : str) (last : option nat) : option nat :=
  match s with
  | [] => last
  | x :: r => rfind_from (S i) c r (if x =? c then Some i else last)
  end.

Definition stem (name : str) : str :=
  match rfind_from 0 46 name None with
  | Some i =>
    if decide (0 < i < length name - 1)%nat then take i name else name
  | None => name
  end.

(** [strftime("%Y-%m-%d")] of a calendar date. *)
Definition strftime_Ymd (d : N * N * N) : str :=
  let '(y, m, dd) := d in
  Py.four_digits y ++ u "-" ++ Py.two_digits m ++ u "-" ++ Py.two_digits dd.

(** [strftime("%Y-%m-%d %H:%M UTC")] *)
Definition strftime_updated (t : utc_time) : str :=
  strftime_Ymd (year t, month t, day t) ++ u " " ++
  Py.two_digits (hour t) ++ u ":" ++ Py.two_digits (minute t) ++ u " UTC".

Section UpdateSite.

(** The two services of the interpreter and the platform that the script
    relies on and that are not spelled out here: [str.lower], on all of
    Unicode, and [datetime.fromtimestamp], which gives the local calendar
    date (year, month, day) of a time stamp. *)
Variable lower : str -> str.
Variable fromtimestamp : Z -> N * N * N.

(** The loop body of [parse_meta_from_html]. *)
Definition parse_line (meta : gmap str str) (line : str) : gmap str str :=
  let line := Py.strip line in
  if bool_decide (line = []) || negb (Py.contains 58 line) then meta
  else
    let '(key, value) := Py.split1 58 line in
    <[lower (Py.strip key) := Py.strip value]> meta.

(** What one line of the block contributes, if anything. *)
Definition line_entry (line : str) : option (str * str) :=
  let line := Py.strip line in
  if bool_decide (line = []) || negb (Py.contains 58 line) then None
  else
    let '(key, value) := Py.split1 58 line in
    Some (lower (Py.strip key), Py.strip value).

Definition parse_block (block : str) : gmap str str :=
  foldl parse_line ∅ (Py.splitlines block).

(** The entries of a block, in the order of its lines. *)
Definition block_entries (block : str) : list (str * str) :=
  omap line_entry (Py.splitlines block).

(** [meta[key] = value] *)
Definition insert_entry (meta : gmap str str) (e : str * str) : gmap str str :=
  <[e.1 := e.2]> meta.

Definition parse_meta_from_html (text : str) : gmap str str :=
  match search_meta text with
  | Some block => parse_block block
  | None => ∅
  end.

(** [[t.strip() for t in v.split(",") if t.strip()]] *)
Definition split_tags (v : str) : list str :=
  omap (fun t => if bool_decide (Py.strip t = []) then None else Some (Py.strip t))
       (Py.split 44 v).

Definition get_page_info (f : File) : Page :=
  let rel_str := Py.join (u "/") (f_dir f ++ [f_name f]) in
  let url_path := PAGES_DIR ++ u "/" ++ rel_str in
  let url := BASE_URL ++ u "/" ++ url_path in
  let meta := parse_meta_from_html (f_text f) in
  let title :=
    match meta !! u "title" with
    | Some (c :: t) => c :: t
    | _ => stem (f_name f)
    end in
  let description := default [] (meta !! u "description") in
  let tags :=
    match meta !! u "tags" with
    | Some v => split_tags v
    | None => []
    end in
  let category := default [] (meta !! u "category") in
  let date_str :=
    match meta !! u "date" with
    | Some v => Py.strip v
    | None => strftime_Ymd (fromtimestamp (f_mtime f))
    end in
  {| path := url_path; rel_path := rel_str; url_path := url_path; url := url;
     title := title; description := description; tags := tags;
     category := category; date := date_str |}.

(** The files [collect_pages] keeps: [name.lower().endswith(".html")]. *)
Definition is_html (f : File) : bool :=
  Py.endswith (u ".html") (lower (f_name f)).

(** The pages in the order of discovery, before the sort. *)
Definition discovered (walk : list File) : list Page :=
  map get_page_info (List.filter is_html walk).

(** [collect_pages], on the files below the content root in the order in
    which [os.walk] yields them. *)
Definition collect_pages (walk : list File) : list Page :=
  Py.sort date true (discovered walk).

End UpdateSite.

(** ** The renderers *)

(** One article of the index. *)
Definition index_item (p : Page) : str :=
  let tags_html :=
    match tags p with
    | [] => []
    | _ =>
      uq "<div class='tags'>" ++
      Py.join (u " / ")
        (map (fun t => uq "<a href='/" ++ TAGS_DIR ++ u "/" ++ t ++ uq ".html'>"
                       ++ t ++ u "</a>") (tags p)) ++
      u "</div>"
    end in
  uq "    <article class='post'>
      <h2><a href='/" ++ url_path p ++ uq "'>" ++ title p ++ uq "</a></h2>
      <div class='meta'>" ++ date p ++ u "  " ++ tags_html ++ u "</div>
    </article>".

(** The index document up to the time stamp, and after it. *)
Definition index_head (items_html : str) : str :=
  uq "<!DOCTYPE html>
<html lang='ja'>
<head>
  <meta charset='UTF-8'>
  <title>compare-aything.com – 比較記事の一覧</title>
  <meta name='viewport' content='width=device-width, initial-scale=1'>
  <meta name='description' content='あらゆる商品・サービス・投資対象を比較するプログラマティックSEOサイト。最新記事一覧。'>
  <style>
    body {
      font-family: system-ui, -apple-system, BlinkMacSystemFont, 'Segoe UI', sans-serif;
      max-width: 880px;
      margin: 2rem auto;
      padding: 0 1rem;
      line-height: 1.6;
    }
    h1 {
      font-size: 1.8rem;
      margin-bottom: 1.5rem;
    }
    .post {
      margin-bottom: 1.2rem;
      padding-bottom: 0.8rem;
      border-bottom: 1px solid #eee;
    }
    .post h2 {
      font-size: 1.15rem;
      margin: 0 0 0.2rem 0;
    }
    .post a {
      text-decoration: none;
    }
    .post a:hover {
      text-decoration: underline;
    }
    .meta {
      font-size: 0.85rem;
      color: #666;
    }
    .tags a {
      font-size: 0.8rem;
      margin-right: 0.3rem;
    }
    footer {
      margin-top: 2rem;
      font-size: 0.8rem;
      color: #888;
    }
  </style>
</head>
<body>
  <h1>比較記事 一覧</h1>
" ++ items_html ++ u "
  <footer>最終更新: ".

Definition index_tail : str :=
  u "</footer>
</body>
</html>
".

Definition index_html (pages : list Page) (updated_at : str) : str :=
  index_head (Py.join nl (map index_item pages)) ++ updated_at ++ index_tail.

(** One line of a tag document, and the document. *)
Definition tag_item (p : Page) : str :=
  uq "    <li><a href='/" ++ url_path p ++ uq "'>" ++ title p ++
  uq "</a> <span class='date'>" ++ date p ++ u "</span></li>".

Definition tag_html (tag : str) (tag_pages : list Page) : str :=
  uq "<!DOCTYPE html>
<html lang='ja'>
<head>
  <meta charset='UTF-8'>
  <title>タグ: " ++ tag ++ uq " – compare-aything.com</title>
  <meta name='viewport' content='width=device-width, initial-scale=1'>
</head>
<body>
  <h1>タグ: " ++ tag ++ u "</h1>
  <ul>
" ++ Py.join nl (map tag_item tag_pages) ++ uq "
  </ul>
  <p><a href='/'>← 一覧に戻る</a></p>
</body>
</html>
".

(** One [url] element of the sitemap, and the elements in order: the
    root, the pages, the files found in the tag directory. *)
Definition sitemap_entry (loc : str) : str :=
  u "  <url>
    <loc>" ++ loc ++ u "</loc>
  </url>".

Definition sitemap_locs (pages : list Page) (tag_files : list str) : list str :=
  (BASE_URL ++ u "/") :: map url pages ++
  map (fun name => BASE_URL ++ u "/" ++ TAGS_DIR ++ u "/" ++ name) tag_files.

Definition sitemap_xml (pages : list Page) (tag_files : list str) : str :=
  uq "<?xml version='1.0' encoding='UTF-8'?>
<urlset xmlns='http://www.sitemaps.org/schemas/sitemap/0.9'>
" ++ Py.join nl (map sitemap_entry (sitemap_locs pages tag_files)) ++ u "
</urlset>
".

(** [tags_map[t].append(p)] on a [defaultdict(list)]: a dictionary keeps
    its keys in the order of their first insertion. *)
Fixpoint tags_map_append (t : str) (p : Page) (m : list (str * list Page))
  : list (str * list Page) :=
  match m with
  | [] => [(t, [p])]
  | (t', ps) :: m' =>
    if decide (t' = t) then (t', ps ++ [p]) :: m'
    else (t', ps) :: tags_map_append t p m'
  end.

Definition tags_map_of (pages : list Page) : list (str * list Page) :=
  foldl (fun m p => foldl (fun m t => tags_map_append t p m) m (tags p)) [] pages.

(** What the loop of [generate_tag_pages] writes, in order: the file name
    below the tag directory and the document. *)
Definition tag_documents (pages : list Page) : list (str * str) :=
  map (fun '(tag, tag_pages) =>
         (tag ++ u ".html", tag_html tag (Py.sort date true tag_pages)))
      (tags_map_of pages).

(** The pairs of a tag and a page that carries it, in the order in which
    the two loops of [generate_tag_pages] meet them. *)
Definition tag_pairs (pages : list Page) : list (str * Page) :=
  p ← pages; (fun t => (t, p)) <$> tags p.

(** The pages that carry [t], in the order of the corpus; a page is there
    once for every occurrence of [t] in its tag list. *)
Definition carrying (t : str) (pages : list Page) : list Page :=
  (filter (fun e => e.1 = t) (tag_pairs pages)).*2.

(** [tags_map.get(t)] *)
Fixpoint tags_map_get (t : str) (m : list (str * list Page)) : option (list Page) :=
  match m with
  | [] => None
  | (t', ps) :: m' => if decide (t' = t) then Some ps else tags_map_get t m'
  end.

(** One step of the two loops that fill [tags_map]. *)
Definition group_step (m : list (str * list Page)) (e : str * Page) := tags_map_append e.1 e.2 m.

(** The document of one entry of [tags_map]. *)
Definition doc_of (e : str * list Page) : str * str :=
  (e.1 ++ u ".html", tag_html e.1 (Py.sort date true e.2)).


(** The paths and the lines of the tag loop. *)
Definition tag_writes (docs : list (str * str)) : list (str * str) :=
  (fun d => (TAGS_DIR ++ u "/" ++ d.1, d.2)) <$> docs.

Definition tag_prints (docs : list (str * str)) : list str :=
  (fun d => u "Updated tag page " ++ TAGS_DIR ++ u "/" ++ d.1) <$> docs.

(** ** The file system and the run *)

(** What a run reads and writes.  [tag_dir] holds the regular files that lie
    directly in [tags/], by name; it is empty when the directory does not
    exist yet ([mkdir(exist_ok=True)] then creates it).  [tags/] is taken to
    hold no subdirectories, and the model is of a POSIX file system: names
    are case-sensitive and may hold any character but [/] and NUL. *)
Record World := {
  pages_is_dir : bool;
  walk : list File;
  tag_dir : gmap str str;
  index_file : option str;
  sitemap_file : option str;
}.

(** The state a run threads: the file system, the lines printed and the
    files written (path and content), both latest first. *)
Record St := {
  fs : World;
  console : list str;
  written : list (str * str);
}.

(** A computation either returns a value or raises; the state it reached
    is kept in both cases. *)
Definition M (A : Type) : Type := St -> St * option A.

Global Instance M_ret : MRet M := fun A x s => (s, Some x).
Global Instance M_bind : MBind M := fun A B k c s =>
  match c s with
  | (s', Some x) => k x s'
  | (s', None) => (s', None)
  end.

Definition raise {A} : M A := fun s => (s, None).

Definition print (line : str) : M unit := fun s =>
  ({| fs := fs s; console := line :: console s; written := written s |}, Some ()).

Definition set_fs (w : World) (p : str) (doc : str) : M unit := fun s =>
  ({| fs := w; console := console s; written := (p, doc) :: written s |}, Some ()).

Definition get_fs : M World := fun s => (s, Some (fs s)).

Definition with_index (html : str) (w : World) : World :=
  {| pages_is_dir := pages_is_dir w; walk := walk w; tag_dir := tag_dir w;
     index_file := Some html; sitemap_file := sitemap_file w |}.

Definition with_sitemap (xml : str) (w : World) : World :=
  {| pages_is_dir := pages_is_dir w; walk := walk w; tag_dir := tag_dir w;
     index_file := index_file w; sitemap_file := Some xml |}.

Definition with_tag_dir (d : gmap str str) (w : World) : World :=
  {| pages_is_dir := pages_is_dir w; walk := walk w; tag_dir := d;
     index_file := index_file w; sitemap_file := sitemap_file w |}.

(** [Path(INDEX_FILE).write_text(html)] *)
Definition write_index (html : str) : M unit :=
  w ← get_fs; set_fs (with_index html w) INDEX_FILE html.

(** [Path(SITEMAP_FILE).write_text(xml)] *)
Definition write_sitemap (xml : str) : M unit :=
  w ← get_fs; set_fs (with_sitemap xml w) SITEMAP_FILE xml.

(** A name that denotes an entry of the directory itself. *)
Definition plain_name (name : str) : bool :=
  negb (Py.contains 47 name) && negb (Py.contains 0 name).

(** [(tags_dir / name).write_text(html)].  A plain name creates or
    overwrites that entry of [tags/].  Any other name raises: [ValueError]
    for a NUL, [FileNotFoundError] for a [/], which points below a
    subdirectory that [tags/] does not have (a path that climbs out of
    [tags/] through [..] or a leading [/] is not followed). *)
Definition write_tag (name : str) (html : str) : M unit :=
  if plain_name name then
    w ← get_fs;
    set_fs (with_tag_dir (<[name := html]> (tag_dir w)) w)
           (TAGS_DIR ++ u "/" ++ name) html
  else raise.

(** Every tag of every page, with [.html] appended, is a plain name. *)
Definition plain_tags (pages : list Page) : bool :=
  forallb (fun p => forallb (fun t => plain_name (t ++ u ".html")) (tags p)) pages.

(** [Path(TAGS_DIR).glob("*.html")]: the names of the directory that end
    in [.html], in the order in which the directory enumerates them (which
    here, as on a file system, is a function of the directory alone). *)
Definition glob_html (d : gmap str str) : list str :=
  List.filter (Py.endswith (u ".html")) (map fst (map_to_list d)).

Fixpoint for_each {A} (body : A -> M unit) (l : list A) : M unit :=
  match l with
  | [] => mret ()
  | x :: r => body x ≫= fun _ => for_each body r
  end.

Definition generate_index_html (now : utc_time) (pages : list Page) : M unit :=
  write_index (index_html pages (strftime_updated now)) ≫= fun _ =>
  print (u "Updated " ++ INDEX_FILE).

(** The end of the body of the tag loop: the document is written and
    the path is printed. *)
Definition write_tag_page (doc : str * str) : M unit :=
  write_tag doc.1 doc.2 ≫= fun _ =>
  print (u "Updated tag page " ++ TAGS_DIR ++ u "/" ++ doc.1).

(** [tags_dir.mkdir(exist_ok=True)]: a missing tag directory is an empty
    [tag_dir], and stays one. *)
Definition mkdir_tags : M unit := mret ().

Definition generate_tag_pages (pages : list Page) : M unit :=
  mkdir_tags ≫= fun _ =>
  for_each write_tag_page (tag_documents pages).


Definition generate_sitemap_xml (pages : list Page) : M unit :=
  w ← get_fs;
  write_sitemap (sitemap_xml pages (glob_html (tag_dir w))) ≫= fun _ =>
  print (u "Updated " ++ SITEMAP_FILE).

Section Main.

Variable lower : str -> str.
Variable fromtimestamp : Z -> N * N * N.

Definition main (now : utc_time) : M unit :=
  w ← get_fs;
  if negb (pages_is_dir w) then
    print (u "ERROR: " ++ PAGES_DIR ++ u " ディレクトリがありません。")
  else
    let pages := collect_pages lower fromtimestamp (walk w) in
    print (u "Found " ++ Py.str_of_N (N.of_nat (length pages)) ++ u " pages.") ≫= fun _ =>
    generate_index_html now pages ≫= fun _ =>
    generate_tag_pages pages ≫= fun _ =>
    generate_sitemap_xml pages.

(** Running the script in the world [w]: the state when the interpreter
    stops, and its exit status, 0 after a normal return of [main] and 1
    after an uncaught exception. *)
Definition run (now : utc_time) (w : World) : St * option unit :=
  main now {| fs := w; console := []; written := [] |}.


(** The state in which a run over plain tags ends. *)
Definition final_state (now : utc_time) (w : World) : St :=
  let pages := collect_pages lower fromtimestamp (walk w) in
  let docs := tag_documents pages in
  let d := foldl insert_entry (tag_dir w) docs in
  let xml := sitemap_xml pages (glob_html d) in
  let idx := index_html pages (strftime_updated now) in
  {| fs := {| pages_is_dir := pages_is_dir w; walk := walk w; tag_dir := d;
              index_file := Some idx; sitemap_file := Some xml |};
     console := [u "Updated " ++ SITEMAP_FILE] ++ reverse (tag_prints docs) ++
                [u "Updated " ++ INDEX_FILE;
                 u "Found " ++ Py.str_of_N (N.of_nat (length pages)) ++ u " pages."];
     written := [(SITEMAP_FILE, xml)] ++ reverse (tag_writes docs) ++
                [(INDEX_FILE, idx)] |}.

End Main.

(** ** Files and worlds for the examples *)

(** [str.lower] on ASCII text. *)
Definition lower_ascii (s : str) : str := map ascii_fold s.

(** A clock for the examples: every time stamp falls on one day. *)
Definition one_day (ts : Z) : N * N * N := (2025, 3, 9).

(** A text with two metadata blocks, the first at its head, whose block
    has a line without colon and two lines of one key. *)
Definition two_blocks : str := Eval vm_compute in
  u "<!--  meta
Title : Alpha
no colon here
 title:  Beta  
--><p>text</p><!-- META
title: Gamma
-->".

Definition first_block : str := Eval vm_compute in
  u "
Title : Alpha
no colon here
 title:  Beta  
".

(** A content file with the tags line of the specification. *)
Definition tagged_file : File := Eval vm_compute in
  {| f_dir := []; f_name := u "a.html";
     f_text := u "<!-- META
title: Alpha
tags: a, b , ,c
date: 2024-01-01
-->";
     f_mtime := 0 |}.

Definition plain_file : File := Eval vm_compute in
  {| f_dir := [u "sub"]; f_name := u "b.HTML"; f_text := u "<p>hello</p>";
     f_mtime := 1741500000000000000 |}.

Definition noon : utc_time :=
  {| year := 2025; month := 3; day := 9; hour := 12; minute := 0 |}.








(** * generate.py: the rows of the table and the template *)

Module Generate.

Definition BASE_URL : str := u "https://example.pages.dev".

(** A row as [csv.DictReader] yields it: the columns in the order of the
    header, each with the field of the row, or [None] where the row is
    shorter than the header; [extra] holds the fields of a row that is
    longer than the header, which [DictReader] stores as a list under the
    key [None].  The column names of [cells] are distinct, as the keys of a
    dictionary are. *)
Record Row := {
  cells : list (str * option str);
  extra : list str;
}.

(** [row[key]]; [None] here is the [KeyError]. *)
Fixpoint getitem (key : str) (cs : list (str * option str)) : option (option str) :=
  match cs with
  | [] => None
  | (k, v) :: r => if decide (k = key) then Some v else getitem key r
  end.

(** The placeholder of the column [key]: key between two pairs of braces. *)
Definition placeholder (key : str) : str := u "{{" ++ key ++ u "}}".

(** The inner loop over [row.items()]: [html.replace(placeholder, value or "")]. *)
Definition substitute (template : str) (cs : list (str * option str)) : str :=
  foldl (fun html '(key, value) =>
           Py.replace (placeholder key) (default [] value) html)
        template cs.

(** A value inside an f-string: [None] prints as its name. *)
Definition fmt (v : option str) : str := default (u "None") v.

(** The body of the loop for one row: the file written, if the body gets
    that far, and the entry appended to [pages], if it completes.  It
    raises [KeyError] without a [slug] column, [TypeError] on the list of a
    long row (which [replace] does not accept), and [KeyError], after the
    file is written, without a [title] column. *)
Definition generate_row (template : str) (row : Row)
  : option (str * str) * option (option str * option str) :=
  match getitem (u "slug") (cells row) with
  | None => (None, None)
  | Some slug =>
    match extra row with
    | _ :: _ => (None, None)
    | [] =>
      let html := substitute template (cells row) in
      let file := (fmt slug ++ u ".html", html) in
      match getitem (u "title") (cells row) with
      | None => (Some file, None)
      | Some title => (Some file, Some (slug, title))
      end
    end
  end.

(** The loop over the rows: the files written, in order, and [pages] when
    no row raised. *)
Fixpoint generate_rows (template : str) (rows : list Row)
  : list (str * str) * option (list (option str * option str)) :=
  match rows with
  | [] => ([], Some [])
  | row :: rest =>
    match generate_row template row with
    | (file, None) => (option_list file, None)
    | (file, Some p) =>
      let '(files, ps) := generate_rows template rest in
      (option_list file ++ files, cons p <$> ps)
    end
  end.

(** An entry of [pages]: the slug and the title of a row, as the f-strings
    of the index and of the sitemap print them. *)
Definition rows_index_item (p : option str * option str) : str :=
  uq "<li><a href='/" ++ fmt p.1 ++ uq ".html'>" ++ fmt p.2 ++ u "</a></li>".

Definition rows_index_html (pages : list (option str * option str)) : str :=
  let index_items := Py.join nl (map rows_index_item pages) in
  uq "<!DOCTYPE html>
<html lang='ja'>
<head>
  <meta charset='UTF-8' />
  <title>カードポイントLab｜トップ</title>
  <meta name='description' content='クレジットカードとポイントの基礎知識をわかりやすく整理するサイトです。' />
  <meta name='viewport' content='width=device-width, initial-scale=1' />
</head>
<body>
  <h1>カードポイントLab</h1>
  <p>クレジットカード選びとポイント活用の情報をまとめたデータベース的サイトです。</p>
  <ul>
    " ++ index_items ++ u "
  </ul>
</body>
</html>
".

Definition rows_sitemap_entry (p : option str * option str) : str :=
  u "  <url><loc>" ++ BASE_URL ++ u "/" ++ fmt p.1 ++ u ".html</loc></url>".

Definition rows_sitemap_xml (pages : list (option str * option str)) : str :=
  let sitemap_entries := Py.join nl (map rows_sitemap_entry pages) in
  uq "<?xml version='1.0' encoding='UTF-8'?>
<urlset xmlns='http://www.sitemaps.org/schemas/sitemap/0.9'>
  <url><loc>" ++ BASE_URL ++ u "/index.html</loc></url>
" ++ sitemap_entries ++ u "
</urlset>
".

(** The script from the loop on: the files written, in order, and the
    line printed at the end when nothing raised.  The index and the
    sitemap are written after the loop.  The writes themselves are taken
    to succeed, which they do for the names that [plain_name] accepts: a
    slug with a slash points into a subdirectory, and whether that is
    there is not part of the model. *)
Definition generate (template : str) (rows : list Row)
  : list (str * str) * option str :=
  match generate_rows template rows with
  | (files, Some pages) =>
    (files ++ [(u "index.html", rows_index_html pages);
               (u "sitemap.xml", rows_sitemap_xml pages)],
     Some (Py.str_of_N (N.of_nat (length pages)) ++ u " ページを生成しました。"))
  | (files, None) => (files, None)
  end.

(** The slug and the title of a row that has these columns, the file that
    the loop writes for it and its entry in [pages]. *)
Definition row_slug (row : Row) : option str :=
  default None (getitem (u "slug") (cells row)).

Definition row_title (row : Row) : option str :=
  default None (getitem (u "title") (cells row)).

Definition row_name (row : Row) : str := fmt (row_slug row) ++ u ".html".

Definition row_file (template : str) (row : Row) : str * str :=
  (row_name row, substitute template (cells row)).

(** The file names of the rows are entries of the output directory. *)
Definition plain_rows (rows : list Row) : bool :=
  forallb (fun row => plain_name (row_name row)) rows.

Definition row_page (row : Row) : option str * option str :=
  (row_slug row, row_title row).

(** A row that the body of the loop gets through: it has the columns
    [slug] and [title] and is not longer than the header. *)
Definition row_ok (row : Row) : bool :=
  bool_decide (is_Some (getitem (u "slug") (cells row))) &&
  bool_decide (is_Some (getitem (u "title") (cells row))) &&
  bool_decide (extra row = []).

(** The directory after the writes: a later write to a name replaces an
    earlier one. *)
Definition files_after (writes : list (str * str)) : gmap str str :=
  foldl insert_entry ∅ writes.

(** *** Templates in the intended form

    The statements below speak of templates that are made of text without
    braces and of placeholders whose keys have no braces either. *)









(** The scenario of the specification: one row [slug=foo,title=Foo]. *)
Definition scenario_template : str := u "<h1>{{title}}</h1><p>{{missing}}</p>".
Definition scenario_row : Row :=
  {| cells := [(u "slug", Some (u "foo")); (u "title", Some (u "Foo"))];
     extra := [] |}.

(** A row under a header that has no [title] column. *)
Definition short_row : Row :=
  {| cells := [(u "slug", Some (u "bar"))]; extra := [] |}.


End Generate.

(** * Facts about the built-ins *)

Section PyFacts.

Lemma startswith_cons x p c s :
  Py.startswith (x :: p) (c :: s) = (x =? c) && Py.startswith p s.
Proof. reflexivity. Qed.


Lemma startswith_app p s : Py.startswith p (p ++ s) = true.
Proof.
  induction p as [|a p IH]; simpl; [done|].
  by rewrite N.eqb_refl, IH.
Qed.


(** ** The order of [str] and the stable sort *)

Lemma compare_refl a : Py.compare a a = Eq.
Proof. induction a as [|x a IH]; [done|]. simpl. by rewrite N.compare_refl. Qed.

Lemma compare_antisym a b : Py.compare b a = CompOpp (Py.compare a b).
Proof.
  revert b. induction a as [|x a IH]; intros [|y b]; try done.
  simpl. rewrite (N.compare_antisym x y).
  destruct (x ?= y); simpl; [apply IH|done..].
Qed.

Lemma compare_le_trans a b c :
  Py.compare a b <> Gt -> Py.compare b c <> Gt -> Py.compare a c <> Gt.
Proof.
  revert b c. induction a as [|x a IH]; intros [|y b] [|z c]; try done.
  simpl.
  destruct (N.compare_spec x y) as [->|Hxy|Hxy]; [| |done].
  - destruct (N.compare_spec y z) as [->|Hyz|Hyz]; [apply IH|done..].
  - intros _.
    destruct (N.compare_spec y z) as [->|Hyz|Hyz]; [| |done]; intros _.
    + by rewrite (proj2 (N.compare_lt_iff x z)).
    + rewrite (proj2 (N.compare_lt_iff x z)); [done|lia].
Qed.

Lemma str_le_compare a b : str_le a b <-> Py.compare a b <> Gt.
Proof.
  unfold str_le, Py.ltb. rewrite (compare_antisym a b).
  destruct (Py.compare a b); simpl; split; done.
Qed.

Global Instance str_le_refl : Reflexive str_le.
Proof. intros a. apply str_le_compare. by rewrite compare_refl. Qed.

Global Instance str_le_trans : Transitive str_le.
Proof.
  intros a b c. rewrite !str_le_compare. apply compare_le_trans.
Qed.

Lemma str_le_total a b : str_le a b \/ str_le b a.
Proof.
  rewrite !str_le_compare, (compare_antisym a b).
  destruct (Py.compare a b); simpl; auto.
Qed.

Lemma ltb_irrefl a : Py.ltb a a = false.
Proof. unfold Py.ltb. by rewrite compare_refl. Qed.

Lemma ltb_str_le a b : Py.ltb a b = true -> str_le a b.
Proof.
  unfold str_le, Py.ltb. rewrite (compare_antisym a b).
  by destruct (Py.compare a b).
Qed.

Section SortFacts.
Context {A : Type} (key : A -> str).

Lemma insert_asc_Permutation x l : Py.insert_asc key x l ≡ₚ x :: l.
Proof.
  induction l as [|y l IH]; [done|]. simpl.
  destruct (Py.ltb (key y) (key x)); [|done].
  rewrite IH. apply Permutation_swap.
Qed.

Lemma sort_asc_Permutation l : Py.sort_asc key l ≡ₚ l.
Proof.
  induction l as [|x l IH]; [done|]. simpl.
  by rewrite insert_asc_Permutation, IH.
Qed.

Lemma insert_asc_sorted x l :
  StronglySorted (key_le key) l -> StronglySorted (key_le key) (Py.insert_asc key x l).
Proof.
  induction l as [|y l IH]; intros Hl.
  - repeat constructor.
  - simpl. destruct (Py.ltb (key y) (key x)) eqn:Hyx.
    + apply StronglySorted_cons in Hl as [Hy Hl].
      apply StronglySorted_cons. split; [|by apply IH].
      rewrite insert_asc_Permutation. constructor; [|done].
      by apply ltb_str_le.
    + apply StronglySorted_cons. split; [|done].
      apply StronglySorted_cons in Hl as [Hy Hl].
      constructor; [done|].
      eapply Forall_impl; [exact Hy|]. intros z Hz.
      unfold key_le in *. by etrans.
Qed.

Lemma sort_asc_sorted l : StronglySorted (key_le key) (Py.sort_asc key l).
Proof.
  induction l as [|x l IH]; [constructor|]. by apply insert_asc_sorted.
Qed.

(** Among the elements of one key nothing moves. *)
Lemma insert_asc_stable d x l :
  filter (fun y => key y = d) (Py.insert_asc key x l)
  = filter (fun y => key y = d) (x :: l).
Proof.
  induction l as [|y l IH]; [done|]. simpl.
  destruct (Py.ltb (key y) (key x)) eqn:Hyx; [|done].
  rewrite (filter_cons _ y), IH, !filter_cons.
  destruct (decide (key y = d)) as [Hy|Hy]; [|done].
  destruct (decide (key x = d)) as [Hx|Hx]; [|done].
  rewrite Hy, Hx, ltb_irrefl in Hyx. done.
Qed.

Lemma sort_asc_stable d l :
  filter (fun y => key y = d) (Py.sort_asc key l)
  = filter (fun y => key y = d) l.
Proof.
  induction l as [|x l IH]; [done|]. simpl.
  by rewrite insert_asc_stable, !filter_cons, IH.
Qed.

Lemma StronglySorted_reverse (R : relation A) l :
  StronglySorted R l -> StronglySorted (flip R) (reverse l).
Proof.
  induction 1 as [|x l Hl IH Hx]; [constructor|].
  rewrite reverse_cons. apply StronglySorted_app. split_and!.
  - intros y z Hy ->%list_elem_of_singleton. unfold flip.
    rewrite Forall_forall in Hx. apply Hx. by apply elem_of_reverse.
  - done.
  - repeat constructor.
Qed.

(** The reversed sort: descending, a permutation, and stable. *)
Lemma sort_reverse_sorted l :
  StronglySorted (flip (key_le key)) (Py.sort key true l).
Proof. apply StronglySorted_reverse, sort_asc_sorted. Qed.

Lemma sort_Permutation rv l : Py.sort key rv l ≡ₚ l.
Proof.
  destruct rv; simpl; [|apply sort_asc_Permutation].
  by rewrite reverse_Permutation, sort_asc_Permutation, reverse_Permutation.
Qed.

Lemma sort_stable rv d l :
  filter (fun y => key y = d) (Py.sort key rv l)
  = filter (fun y => key y = d) l.
Proof.
  destruct rv; simpl; [|apply sort_asc_stable].
  by rewrite filter_reverse, sort_asc_stable, filter_reverse, reverse_involutive.
Qed.

End SortFacts.

End PyFacts.

(** * generate.py: which placeholders are substituted *)

Section GenerateFacts.
Import Generate.













Lemma generate_row_file template row slug :
  getitem (u "slug") (cells row) = Some slug -> extra row = [] ->
  (generate_row template row).1
  = Some (fmt slug ++ u ".html", substitute template (cells row)).
Proof.
  intros Hs He. unfold generate_row. rewrite Hs, He.
  by destruct (getitem (u "title") (cells row)).
Qed.




End GenerateFacts.

(** * update_site.py: finding the metadata block *)

Section SearchFacts.

Lemma startswith_true p s : Py.startswith p s = true <-> exists r, s = p ++ r.
Proof.
  revert s. induction p as [|a p IH]; intros s.
  - split; [by exists s|done].
  - destruct s as [|b s].
    + split; [done|]. by intros [r Hr].
    + rewrite startswith_cons, andb_true_iff, N.eqb_eq, IH. split.
      * intros [-> [r ->]]. by exists r.
      * intros [r Hr]. injection Hr as -> ->. eauto.
Qed.

Lemma strip_prefix_Some p s r : strip_prefix p s = Some r <-> s = p ++ r.
Proof.
  revert s. induction p as [|a p IH]; intros s.
  - simpl. split; congruence.
  - destruct s as [|b s]; [done|]. simpl.
    destruct (N.eqb_spec a b) as [->|Hne].
    + rewrite IH. split; congruence.
    + split; [done|]. congruence.
Qed.

Lemma strip_prefix_ci_Some p s r :
  strip_prefix_ci p s = Some r <->
  exists m, s = m ++ r /\ Forall2 (fun a b => ascii_fold a = ascii_fold b) p m.
Proof.
  revert s. induction p as [|a p IH]; intros s.
  - simpl. split.
    + intros [= ->]. by exists [].
    + intros (m & -> & ->%Forall2_nil_inv_l). done.
  - destruct s as [|b s].
    + split; [done|]. intros (m & Hs & Hm).
      apply Forall2_cons_inv_l in Hm as (? & ? & _ & _ & ->). done.
    + simpl. destruct (N.eqb_spec (ascii_fold a) (ascii_fold b)) as [He|Hne].
      * rewrite IH. split.
        -- intros (m & -> & Hm). exists (b :: m). split; [done|by constructor].
        -- intros (m & Hs & Hm).
           apply Forall2_cons_inv_l in Hm as (b' & m' & _ & Hm & ->).
           injection Hs as -> ->. eauto.
      * split; [done|]. intros (m & Hs & Hm).
        apply Forall2_cons_inv_l in Hm as (b' & m' & Hb & _ & ->).
        injection Hs as -> ->. done.
Qed.

Lemma lstrip_split s :
  exists ws, s = ws ++ Py.lstrip s /\ Forall (fun c => Py.isspace c = true) ws.
Proof.
  induction s as [|c s (ws & Hs & Hws)]; [by exists []|].
  simpl. destruct (Py.isspace c) eqn:Hc.
  - exists (c :: ws). split; [simpl; congruence|by constructor].
  - by exists [].
Qed.

Lemma lstrip_app ws t :
  Forall (fun c => Py.isspace c = true) ws ->
  Py.lstrip (ws ++ t) = Py.lstrip t.
Proof. induction 1 as [|c ws Hc _ IH]; [done|]. simpl. by rewrite Hc. Qed.

(** The marker does not begin with white space. *)
Lemma lstrip_marker m t : is_marker m -> Py.lstrip (m ++ t) = m ++ t.
Proof.
  intros Hm. apply Forall2_cons_inv_l in Hm as (c & m' & Hc & _ & ->).
  assert (c = 77 \/ c = 109) as [->| ->]; [|done..].
  unfold ascii_fold in Hc at 2.
  assert (Hm : ascii_fold (N_of_ascii "M") = 109) by reflexivity.
  rewrite Hm in Hc.
  destruct ((65 <=? c) && (c <=? 90)); [left|right]; lia.
Qed.

Lemma find_first_unfold pat s :
  find_first pat s =
  if Py.startswith pat s then Some ([], drop (length pat) s)
  else match s with
       | [] => None
       | c :: r =>
         match find_first pat r with
         | Some (a, b) => Some (c :: a, b)
         | None => None
         end
       end.
Proof. by destruct s. Qed.

Lemma find_first_Some pat s a b :
  find_first pat s = Some (a, b) <->
  s = a ++ pat ++ b /\
  (forall a1 a2, a = a1 ++ a2 -> a2 <> [] ->
     Py.startswith pat (a2 ++ pat ++ b) = false).
Proof.
  revert a. induction s as [|c s IH]; intros a; rewrite find_first_unfold.
  - destruct (Py.startswith pat []) eqn:Hp.
    + apply startswith_true in Hp as [r Hr].
      symmetry in Hr. apply app_eq_nil in Hr as [-> ->]. simpl. split.
      * intros [= <- <-]. split; [done|]. by intros [|] [|].
      * intros [H _]. symmetry in H. apply app_eq_nil in H as [-> ->]. done.
    + split; [done|]. intros [H _]. symmetry in H.
      apply app_eq_nil in H as [-> [-> ->]%app_eq_nil]. done.
  - destruct (Py.startswith pat (c :: s)) eqn:Hp.
    + pose proof Hp as [r Hr]%startswith_true. split.
      * intros [= <- <-]. rewrite Hr, drop_app_length. split; [done|].
        by intros [|] [|].
      * intros [Hs Ha]. destruct a as [|c' a].
        -- simpl in Hs. rewrite Hs, drop_app_length. done.
        -- specialize (Ha [] (c' :: a) eq_refl). rewrite <- Hs, Hp in Ha.
           by discriminate Ha.
    + split.
      * destruct (find_first pat s) as [[a' b']|] eqn:Hf; [|done].
        intros [= <- <-]. destruct (proj1 (IH a') eq_refl) as [Hs Ha'].
        split; [simpl; congruence|].
        intros [|x a1] a2 Ha2 Hne.
        -- simpl in Ha2. subst a2. cbn [app]. congruence.
        -- injection Ha2 as -> ->. by apply (Ha' a1).
      * intros [Hs Ha]. destruct a as [|c' a].
        -- simpl in Hs. rewrite Hs in Hp. by rewrite startswith_app in Hp.
        -- injection Hs as <- Hs.
           rewrite (proj2 (IH a)); [done|]. split; [done|].
           intros a1 a2 -> Hne. by apply (Ha (c :: a1) a2).
Qed.

(** The match at the head of a text is the metadata block there. *)
Lemma match_meta_Some s block :
  match_meta s = Some block <-> exists rest, block_at_head s block rest.
Proof.
  unfold match_meta, block_at_head. split.
  - intros H.
    destruct (strip_prefix (u "<!--") s) as [s1|] eqn:H1; [|done].
    cbn [mbind option_bind] in H.
    destruct (strip_prefix_ci (u "META") (Py.lstrip s1)) as [s3|] eqn:H2;
      [|done].
    cbn [mbind option_bind] in H.
    destruct (find_first (u "-->") s3) as [[b r]|] eqn:H3; [|done].
    injection H as <-.
    apply strip_prefix_Some in H1.
    apply strip_prefix_ci_Some in H2 as (m & H2 & Hm).
    apply find_first_Some in H3 as [H3 Hb].
    destruct (lstrip_split s1) as (ws & Hs1 & Hws).
    exists r, ws, m. split_and!; [|done..].
    by rewrite H1, Hs1, H2, H3.
  - intros (rest & ws & m & -> & Hws & Hm & Hb).
    rewrite (proj2 (strip_prefix_Some _ _ (ws ++ m ++ block ++ u "-->" ++ rest)))
      by done.
    cbn [mbind option_bind].
    rewrite lstrip_app, lstrip_marker by done.
    rewrite (proj2 (strip_prefix_ci_Some _ _ (block ++ u "-->" ++ rest)))
      by eauto.
    cbn [mbind option_bind].
    by rewrite (proj2 (find_first_Some _ _ block rest)).
Qed.

Lemma search_meta_unfold s :
  search_meta s =
  match match_meta s with
  | Some block => Some block
  | None => match s with [] => None | _ :: r => search_meta r end
  end.
Proof. by destruct s. Qed.

(** The search returns the first block of the text. *)
Lemma search_meta_first text pre block :
  block_after text pre block ->
  (forall pre' block', block_after text pre' block' -> length pre <= length pre')%nat ->
  search_meta text = Some block.
Proof.
  revert text. induction pre as [|c pre IH]; intros text (s & rest & -> & Hb) Hfirst.
  - cbn [app]. rewrite search_meta_unfold.
    by rewrite (proj2 (match_meta_Some s block)) by eauto.
  - rewrite search_meta_unfold.
    destruct (match_meta ((c :: pre) ++ s)) as [b0|] eqn:Hm.
    + apply match_meta_Some in Hm as [r0 Hm].
      specialize (Hfirst [] b0). simpl in Hfirst.
      assert (S (length pre) <= 0)%nat; [|lia].
      apply Hfirst. by exists ((c :: pre) ++ s), r0.
    + cbn [app]. apply IH; [by exists s, rest|].
      intros pre' block' (s' & rest' & Hs' & Hb').
      specialize (Hfirst (c :: pre') block'). simpl in Hfirst.
      assert (S (length pre) <= S (length pre'))%nat; [|lia].
      apply Hfirst. exists s', rest'. split; [|done]. simpl. by f_equal.
Qed.

Lemma search_meta_None text :
  (forall pre block, ~ block_after text pre block) -> search_meta text = None.
Proof.
  induction text as [|c text IH]; intros Hno; rewrite search_meta_unfold.
  - destruct (match_meta []) as [b|] eqn:Hm; [|done].
    apply match_meta_Some in Hm as [r Hm]. destruct (Hno [] b). by exists [], r.
  - destruct (match_meta (c :: text)) as [b|] eqn:Hm.
    + apply match_meta_Some in Hm as [r Hm].
      destruct (Hno [] b). by exists (c :: text), r.
    + apply IH. intros pre block (s & rest & -> & Hb).
      apply (Hno (c :: pre) block). by exists s, rest.
Qed.

(** Conversely, what the search returns is a block of the text, and no
    block begins before it. *)
Lemma search_meta_Some text block :
  search_meta text = Some block ->
  exists pre, block_after text pre block /\
    forall pre' block', block_after text pre' block' -> (length pre <= length pre')%nat.
Proof.
  induction text as [|c text IH]; rewrite search_meta_unfold.
  - destruct (match_meta []) as [b|] eqn:Hm; [|done]. intros [= ->].
    apply match_meta_Some in Hm as [r Hm].
    exists []. split; [by exists [], r|]. intros; simpl; lia.
  - destruct (match_meta (c :: text)) as [b|] eqn:Hm.
    + intros [= ->]. apply match_meta_Some in Hm as [r Hm].
      exists []. split; [by exists (c :: text), r|]. intros; simpl; lia.
    + intros (pre & (s & rest & -> & Hb) & Hfirst)%IH.
      exists (c :: pre). split; [by exists s, rest|].
      intros [|c' pre'] block' (s' & rest' & Hs' & Hb').
      * simpl in Hs'. subst s'.
        assert (match_meta (c :: pre ++ s) = Some block') as Hm';
          [|congruence].
        apply match_meta_Some. eauto.
      * injection Hs' as <- Hs'. simpl.
        assert (length pre <= length pre')%nat; [|lia].
        apply (Hfirst pre' block'). by exists s', rest'.
Qed.

End SearchFacts.

(** * update_site.py: the entries of the metadata block *)

Section BlockFacts.

Variable lower : str -> str.

Lemma contains_elem_of (sep : N) (s : str) : Py.contains sep s = true <-> sep ∈ s.
Proof.
  unfold Py.contains. induction s as [|c s IH]; simpl.
  - split; [done|]. by intros ?%elem_of_nil.
  - rewrite orb_true_iff, IH, elem_of_cons, N.eqb_eq. done.
Qed.

Lemma split1_app (sep : N) (key value : str) :
  sep ∉ key -> Py.split1 sep (key ++ sep :: value) = (key, value).
Proof.
  induction key as [|c key IH]; intros Hk; simpl.
  - by rewrite N.eqb_refl.
  - apply not_elem_of_cons in Hk as [Hc Hk].
    destruct (N.eqb_spec c sep) as [->|_]; [done|]. by rewrite IH.
Qed.

Lemma elem_of_split1 (sep : N) (s : str) :
  sep ∈ s -> exists key value, s = key ++ sep :: value /\ (sep ∉ key).
Proof.
  induction s as [|c s IH]; [by intros ?%elem_of_nil|].
  destruct (decide (c = sep)) as [->|Hne].
  - intros _. exists [], s. split; [done|]. apply not_elem_of_nil.
  - intros [?|(key & value & -> & Hk)%IH]%elem_of_cons; [done|].
    exists (c :: key), value. split; [done|].
    apply not_elem_of_cons. split; [congruence|done].
Qed.

(** A line contributes an entry exactly when, trimmed, it reads
    [key:value]; the entry is the lowered trimmed key with the trimmed
    value. *)
Lemma line_entry_Some (line k v : str) :
  line_entry lower line = Some (k, v) <->
  exists key value,
    Py.strip line = key ++ 58 :: value /\ (58 ∉ key) /\
    k = lower (Py.strip key) /\ v = Py.strip value.
Proof.
  unfold line_entry. split.
  - destruct (bool_decide (Py.strip line = [])); [done|]. simpl.
    destruct (Py.contains 58 (Py.strip line)) eqn:Hc; [|done]. simpl.
    apply contains_elem_of, elem_of_split1 in Hc as (key & value & Hl & Hk).
    rewrite Hl, split1_app by done. intros [= <- <-]. by exists key, value.
  - intros (key & value & Hl & Hk & -> & ->).
    rewrite Hl, split1_app by done.
    rewrite bool_decide_eq_false_2 by (by destruct key).
    rewrite (proj2 (contains_elem_of 58 (key ++ 58 :: value))); [done|].
    rewrite elem_of_app, elem_of_cons. auto.
Qed.

Lemma parse_line_entry meta line :
  parse_line lower meta line =
  match line_entry lower line with
  | Some (k, v) => <[k := v]> meta
  | None => meta
  end.
Proof.
  unfold parse_line, line_entry.
  destruct (bool_decide _ || negb _); [done|].
  by destruct (Py.split1 58 (Py.strip line)).
Qed.

Lemma omap_cons_match {A B} (f : A -> option B) x l :
  omap f (x :: l)
  = match f x with Some y => y :: omap f l | None => omap f l end.
Proof. reflexivity. Qed.

Lemma foldl_parse_line meta lines :
  foldl (parse_line lower) meta lines
  = foldl insert_entry meta (omap (line_entry lower) lines).
Proof.
  revert meta. induction lines as [|line lines IH]; intros meta; [done|].
  cbn [foldl]. rewrite parse_line_entry, IH, omap_cons_match.
  by destruct (line_entry lower line) as [[k v]|].
Qed.

Lemma parse_block_entries block :
  parse_block lower block = foldl insert_entry ∅ (block_entries lower block).
Proof. apply foldl_parse_line. Qed.

Lemma foldl_insert_ne (es : list (str * str)) (meta : gmap str str) k :
  k ∉ es.*1 -> foldl insert_entry meta es !! k = meta !! k.
Proof.
  revert meta. induction es as [|[k' v'] es IH]; intros meta Hk; [done|].
  rewrite fmap_cons in Hk. apply not_elem_of_cons in Hk as [Hne Hk].
  cbn [foldl]. rewrite IH by done. unfold insert_entry. simpl.
  by rewrite lookup_insert_ne.
Qed.

Lemma foldl_insert_last (es1 es2 : list (str * str)) (meta : gmap str str) k v :
  k ∉ es2.*1 -> foldl insert_entry meta (es1 ++ (k, v) :: es2) !! k = Some v.
Proof.
  intros Hk. rewrite foldl_app. cbn [foldl]. rewrite foldl_insert_ne by done.
  unfold insert_entry at 1. simpl. by rewrite lookup_insert_eq.
Qed.

Lemma foldl_insert_inv (es : list (str * str)) (meta : gmap str str) k v :
  foldl insert_entry meta es !! k = Some v ->
  meta !! k = Some v \/ (k, v) ∈ es.
Proof.
  revert meta. induction es as [|[k' v'] es IH]; intros meta; [by left|].
  cbn [foldl]. intros [H|H]%IH.
  - unfold insert_entry in H. simpl in H.
    destruct (decide (k' = k)) as [->|Hne].
    + rewrite lookup_insert_eq in H. injection H as ->. right. by left.
    + rewrite lookup_insert_ne in H by done. by left.
  - right. by right.
Qed.

Lemma foldl_insert_is_Some (es : list (str * str)) (meta : gmap str str) k v :
  (k, v) ∈ es -> is_Some (foldl insert_entry meta es !! k).
Proof.
  revert meta v. induction es as [|[k' v'] es IH]; intros meta v.
  - by intros ?%elem_of_nil.
  - cbn [foldl]. intros [[= -> ->]|H]%elem_of_cons; [|by apply (IH _ v)].
    destruct (decide (k' ∈ es.*1)) as [(e & He1 & He2)%list_elem_of_fmap|Hk].
    + destruct e as [k'' v'']. simpl in He1. subst k''. by apply (IH _ v'').
    + rewrite foldl_insert_ne by done. unfold insert_entry. simpl.
      rewrite lookup_insert_eq. eauto.
Qed.

(** The last line of a key decides its value. *)
Lemma parse_block_last (block : str) l1 (line : str) l2 (key value : str) :
  Py.splitlines block = l1 ++ line :: l2 ->
  Py.strip line = key ++ 58 :: value -> 58 ∉ key ->
  (forall line' key' value',
     line' ∈ l2 -> Py.strip line' = key' ++ 58 :: value' -> 58 ∉ key' ->
     lower (Py.strip key') <> lower (Py.strip key)) ->
  parse_block lower block !! lower (Py.strip key) = Some (Py.strip value).
Proof.
  intros Hlines Hline Hkey Hlater.
  rewrite parse_block_entries. unfold block_entries.
  rewrite Hlines, omap_app, omap_cons_match.
  rewrite (proj2 (line_entry_Some line _ _)) by (by exists key, value).
  apply foldl_insert_last.
  intros ([k v] & Hk & (line' & Hin & He)%list_elem_of_omap)%list_elem_of_fmap.
  simpl in Hk. subst k.
  apply line_entry_Some in He as (key' & value' & Hl' & Hk' & He & _).
  by apply (Hlater line' key' value').
Qed.

Lemma parse_block_is_Some (block line key value : str) :
  line ∈ Py.splitlines block ->
  Py.strip line = key ++ 58 :: value -> 58 ∉ key ->
  is_Some (parse_block lower block !! lower (Py.strip key)).
Proof.
  intros Hin Hline Hkey. rewrite parse_block_entries.
  apply (foldl_insert_is_Some _ _ _ (Py.strip value)).
  apply list_elem_of_omap. exists line. split; [done|].
  apply line_entry_Some. by exists key, value.
Qed.

Lemma parse_block_inv (block k v : str) :
  parse_block lower block !! k = Some v ->
  exists line key value,
    line ∈ Py.splitlines block /\
    Py.strip line = key ++ 58 :: value /\ (58 ∉ key) /\
    k = lower (Py.strip key) /\ v = Py.strip value.
Proof.
  rewrite parse_block_entries. intros [H|H]%foldl_insert_inv; [done|].
  apply list_elem_of_omap in H as (line & Hin & He).
  apply line_entry_Some in He as (key & value & ?). by exists line, key, value.
Qed.

End BlockFacts.

(** * update_site.py: metadata, pages and their order *)

Section PageFacts.

Variable lower : str -> str.
Variable fromtimestamp : Z -> N * N * N.

(** [split] cuts at every separator and nowhere else. *)
Lemma split_cons (sep : N) (s : str) : exists p ps, Py.split sep s = p :: ps.
Proof.
  destruct s as [|c s]; simpl; [by eexists _, _|].
  destruct (c =? sep); [by eexists _, _|].
  destruct (Py.split sep s); by eexists _, _.
Qed.

Lemma split_join (sep : N) (s : str) : Py.join [sep] (Py.split sep s) = s.
Proof.
  induction s as [|c s IH]; [done|]. simpl.
  destruct (split_cons sep s) as (p & ps & Hs). rewrite Hs in *.
  destruct (N.eqb_spec c sep) as [->|Hne].
  - rewrite <- IH. by destruct ps.
  - rewrite <- IH. by destruct ps.
Qed.

Lemma split_no_sep (sep : N) (s : str) :
  Forall (fun p => sep ∉ p) (Py.split sep s).
Proof.
  induction s as [|c s IH]; simpl.
  - repeat constructor. apply not_elem_of_nil.
  - destruct (N.eqb_spec c sep) as [->|Hne].
    + constructor; [apply not_elem_of_nil|done].
    + destruct (split_cons sep s) as (p & ps & Hs). rewrite Hs in *.
      apply Forall_cons in IH as [Hp Hps]. constructor; [|done].
      apply not_elem_of_cons. split; [congruence|done].
Qed.

(** The comprehension of [get_page_info]: trim, then drop what is empty. *)
Lemma split_tags_filter (v : str) :
  split_tags v = filter (fun t => t <> []) (Py.strip <$> Py.split 44 v).
Proof.
  unfold split_tags. induction (Py.split 44 v) as [|p ps IH]; [done|].
  rewrite omap_cons_match, fmap_cons, filter_cons, IH.
  destruct (decide (Py.strip p = [])) as [He|Hne].
  - by rewrite bool_decide_eq_true_2, decide_False by auto.
  - by rewrite bool_decide_eq_false_2, decide_True by auto.
Qed.

(** C1.  The sequence that [collect_pages] returns is in descending order
    of [date] (no page stands before a page with a larger date), it holds
    the discovered pages, and the pages of one date stand in it in the
    order of their discovery. *)
Theorem collect_pages_sorted_stable (walk : list File) :
  let pages := collect_pages lower fromtimestamp walk in
  StronglySorted (fun p q => str_le (date q) (date p)) pages /\
  pages ≡ₚ discovered lower fromtimestamp walk /\
  (forall d, filter (fun p => date p = d) pages
             = filter (fun p => date p = d) (discovered lower fromtimestamp walk)).
Proof.
  split_and!.
  - apply (sort_reverse_sorted date).
  - apply sort_Permutation.
  - intros d. apply sort_stable.
Qed.

(** C6.  Without a metadata block in the text the mapping is empty; with
    one, the mapping is that of the first block, whatever follows it.  In
    a block, every line that reads [key:value] once trimmed has its
    lowered, trimmed key in the mapping, with its trimmed value unless a
    later line has the same key; and every entry of the mapping comes from
    such a line, so lines without a colon contribute nothing. *)
Theorem parse_meta_first_block (text : str) :
  ((forall pre block, ~ block_after text pre block) ->
     parse_meta_from_html lower text = ∅) /\
  (forall pre block,
     block_after text pre block ->
     (forall pre' block', block_after text pre' block' ->
        (length pre <= length pre')%nat) ->
     parse_meta_from_html lower text = parse_block lower block) /\
  (forall (block : str) l1 (line : str) l2 (key value : str),
     Py.splitlines block = l1 ++ line :: l2 ->
     Py.strip line = key ++ 58 :: value -> 58 ∉ key ->
     is_Some (parse_block lower block !! lower (Py.strip key)) /\
     ((forall line' key' value',
         line' ∈ l2 -> Py.strip line' = key' ++ 58 :: value' -> 58 ∉ key' ->
         lower (Py.strip key') <> lower (Py.strip key)) ->
      parse_block lower block !! lower (Py.strip key) = Some (Py.strip value))) /\
  (forall block k v,
     parse_block lower block !! k = Some v ->
     exists line key value,
       line ∈ Py.splitlines block /\
       Py.strip line = key ++ 58 :: value /\ (58 ∉ key) /\
       k = lower (Py.strip key) /\ v = Py.strip value).
Proof.
  split_and!.
  - intros Hno. unfold parse_meta_from_html. by rewrite search_meta_None.
  - intros pre block Hb Hfirst. unfold parse_meta_from_html.
    by rewrite (search_meta_first text pre block).
  - intros block l1 line l2 key value Hlines Hline Hkey. split.
    + apply (parse_block_is_Some lower block line key value); [|done..].
      rewrite Hlines, elem_of_app, elem_of_cons. auto.
    + by apply (parse_block_last lower block l1 line l2).
  - apply parse_block_inv.
Qed.

(** C10.  When several lines of the block of a file yield one key, the
    mapping holds the trimmed value of the last of them. *)
Theorem duplicate_key_last_wins
    (text block : str) l1 (line : str) l2 (key value : str) :
  search_meta text = Some block ->
  Py.splitlines block = l1 ++ line :: l2 ->
  Py.strip line = key ++ 58 :: value -> 58 ∉ key ->
  (forall line' key' value',
     line' ∈ l2 -> Py.strip line' = key' ++ 58 :: value' -> 58 ∉ key' ->
     lower (Py.strip key') <> lower (Py.strip key)) ->
  parse_meta_from_html lower text !! lower (Py.strip key) = Some (Py.strip value).
Proof.
  intros Hs. unfold parse_meta_from_html. rewrite Hs.
  apply parse_block_last.
Qed.

(** C7.  The tags of a page are the pieces of the [tags] entry between
    its commas (the pieces have no comma, and joined by commas they give
    the entry), trimmed, without the empty ones and in their order; the
    entry [a, b , ,c], and so a last [tags] line that reads
    [tags: a, b , ,c], gives [a], [b], [c]; without a [tags] entry there
    are no tags. *)
Theorem page_tags_split (f : File) :
  let meta := parse_meta_from_html lower (f_text f) in
  (forall v, meta !! u "tags" = Some v ->
     tags (get_page_info lower fromtimestamp f)
     = filter (fun t => t <> []) (Py.strip <$> Py.split 44 v)) /\
  (meta !! u "tags" = Some (u "a, b , ,c") ->
     tags (get_page_info lower fromtimestamp f) = [u "a"; u "b"; u "c"]) /\
  (forall block l1 l2,
     search_meta (f_text f) = Some block ->
     Py.splitlines block = l1 ++ u "tags: a, b , ,c" :: l2 ->
     lower (u "tags") = u "tags" ->
     (forall line' key' value',
        line' ∈ l2 -> Py.strip line' = key' ++ 58 :: value' -> 58 ∉ key' ->
        lower (Py.strip key') <> u "tags") ->
     tags (get_page_info lower fromtimestamp f) = [u "a"; u "b"; u "c"]) /\
  (meta !! u "tags" = None -> tags (get_page_info lower fromtimestamp f) = []) /\
  (forall v, Py.join [44] (Py.split 44 v) = v /\
             Forall (fun piece => 44 ∉ piece) (Py.split 44 v)).
Proof.
  assert (Hentry : parse_meta_from_html lower (f_text f) !! u "tags"
                   = Some (u "a, b , ,c") ->
                   tags (get_page_info lower fromtimestamp f)
                   = [u "a"; u "b"; u "c"]).
  { intros H. unfold get_page_info. cbn [tags]. by rewrite H. }
  split_and!.
  - intros v H. unfold get_page_info. cbn [tags]. rewrite H.
    apply split_tags_filter.
  - done.
  - intros block l1 l2 Hs Hlines Hlow Hlater. apply Hentry.
    unfold parse_meta_from_html. rewrite Hs.
    pose proof (parse_block_last lower block l1
                  (u "tags: a, b , ,c") l2 (u "tags") (u " a, b , ,c")) as H.
    change (Py.strip (u "tags")) with (u "tags") in H.
    change (Py.strip (u " a, b , ,c")) with (u "a, b , ,c") in H.
    rewrite Hlow in H. apply H; try done.
    intros Hin%contains_elem_of. vm_compute in Hin. discriminate.
  - intros H. unfold get_page_info. cbn [tags]. by rewrite H.
  - intros v. split; [apply split_join|apply split_no_sep].
Qed.





End PageFacts.

(** ** The statements at concrete files *)


Lemma not_elem_of_contains (sep : N) (s : str) :
  Py.contains sep s = false -> sep ∉ s.
Proof. intros H Hin%contains_elem_of. congruence. Qed.

Lemma parse_meta_first_block_witness :
  parse_meta_from_html lower_ascii two_blocks
  = parse_block lower_ascii first_block.
Proof.
  apply (proj1 (proj2 (parse_meta_first_block lower_ascii two_blocks)) []).
  - assert (Hm : match_meta two_blocks = Some first_block)
      by (vm_compute; reflexivity).
    apply match_meta_Some in Hm as [rest Hm].
    exists two_blocks, rest. split; [reflexivity|exact Hm].
  - intros pre' block' _. apply Nat.le_0_l.
Defined.

Lemma duplicate_key_last_wins_witness :
  parse_meta_from_html lower_ascii two_blocks
    !! lower_ascii (Py.strip (u "title"))
  = Some (Py.strip (u "  Beta")).
Proof.
  apply (duplicate_key_last_wins lower_ascii two_blocks first_block
           [[]; u "Title : Alpha"; u "no colon here"]
           (u " title:  Beta  ") [] (u "title") (u "  Beta")).
  - vm_compute; reflexivity.
  - vm_compute; reflexivity.
  - vm_compute; reflexivity.
  - apply not_elem_of_contains. vm_compute; reflexivity.
  - intros line' key' value' Hin. by apply elem_of_nil in Hin.
Defined.

Lemma page_tags_split_witness :
  tags (get_page_info lower_ascii one_day tagged_file) = [u "a"; u "b"; u "c"].
Proof.
  apply (proj1 (proj2 (proj2 (page_tags_split lower_ascii one_day tagged_file)))
           (u "
title: Alpha
tags: a, b , ,c
date: 2024-01-01
") [[]; u "title: Alpha"] [u "date: 2024-01-01"]).
  - vm_compute; reflexivity.
  - vm_compute; reflexivity.
  - vm_compute; reflexivity.
  - intros line' key' value' ->%list_elem_of_singleton Hline Hkey.
    pose proof (split1_app 58 key' value' Hkey) as Hsplit.
    rewrite <- Hline in Hsplit. vm_compute in Hsplit.
    injection Hsplit as <- _. vm_compute. discriminate.
Defined.


(** * update_site.py: the tag documents *)

Section TagFacts.

Implicit Types (m : list (str * list Page)) (t : str) (p : Page).

Lemma tags_map_get_append t' t p m :
  tags_map_get t' (tags_map_append t p m)
  = if decide (t' = t) then Some (default [] (tags_map_get t m) ++ [p])
    else tags_map_get t' m.
Proof.
  induction m as [|[t0 ps] m IH]; simpl.
  - destruct (decide (t = t')) as [->|Hne].
    + by rewrite decide_True.
    + by rewrite decide_False by congruence.
  - destruct (decide (t0 = t)) as [->|Hne]; simpl.
    + destruct (decide (t = t')) as [->|Hne'].
      * by rewrite decide_True.
      * by rewrite decide_False by congruence.
    + destruct (decide (t0 = t')) as [->|Hne'].
      * by rewrite decide_False by congruence.
      * apply IH.
Qed.

Lemma tags_map_append_keys t' t p m :
  t' ∈ (tags_map_append t p m).*1 <-> t' = t \/ t' ∈ m.*1.
Proof.
  induction m as [|[t0 ps] m IH]; simpl.
  - rewrite list_elem_of_singleton, elem_of_nil. tauto.
  - destruct (decide (t0 = t)) as [->|Hne]; simpl.
    + rewrite !elem_of_cons. tauto.
    + rewrite !elem_of_cons, IH. tauto.
Qed.

Lemma tags_map_append_NoDup t p m :
  NoDup m.*1 -> NoDup (tags_map_append t p m).*1.
Proof.
  induction m as [|[t0 ps] m IH]; simpl.
  - intros _. apply NoDup_singleton.
  - intros [H0 Hm]%NoDup_cons. destruct (decide (t0 = t)) as [->|Hne]; simpl.
    + by apply NoDup_cons.
    + apply NoDup_cons. split; [|by apply IH].
      rewrite tags_map_append_keys. intros [?|?]; done.
Qed.

Lemma tags_map_get_is_Some t m : t ∈ m.*1 -> is_Some (tags_map_get t m).
Proof.
  induction m as [|[t0 ps] m IH]; simpl; [by intros ?%elem_of_nil|].
  intros [->|H]%elem_of_cons.
  - rewrite decide_True by done. eauto.
  - destruct (decide (t0 = t)); [eauto|by apply IH].
Qed.

Lemma tags_map_get_elem_of t ps m :
  NoDup m.*1 -> (t, ps) ∈ m <-> tags_map_get t m = Some ps.
Proof.
  induction m as [|[t0 ps0] m IH]; simpl.
  - intros _. split; [by intros ?%elem_of_nil|done].
  - intros [H0 Hm]%NoDup_cons. rewrite elem_of_cons.
    destruct (decide (t0 = t)) as [->|Hne].
    + split.
      * intros [[= ->]|Hin]; [done|]. destruct H0.
        apply list_elem_of_fmap. by exists (t, ps).
      * intros [= ->]. by left.
    + rewrite <- IH by done. split; [|by right].
      intros [[= -> ->]|Hin]; done.
Qed.

Lemma tags_map_of_pairs pages :
  tags_map_of pages = foldl group_step [] (tag_pairs pages).
Proof.
  unfold tags_map_of, tag_pairs. generalize (@nil (str * list Page)).
  induction pages as [|p pages IH]; intros m; [done|].
  cbn [foldl]. rewrite bind_cons, foldl_app, IH. f_equal.
  clear. revert m. induction (tags p) as [|t ts IH]; intros m; [done|].
  apply IH.
Qed.

Lemma group_keys t m (es : list (str * Page)) :
  t ∈ (foldl group_step m es).*1 <-> t ∈ m.*1 \/ t ∈ es.*1.
Proof.
  revert m. induction es as [|[t0 p0] es IH]; intros m; cbn [foldl].
  - rewrite fmap_nil, elem_of_nil. tauto.
  - rewrite IH. unfold group_step at 1. simpl.
    rewrite tags_map_append_keys, elem_of_cons. tauto.
Qed.

Lemma group_NoDup m (es : list (str * Page)) :
  NoDup m.*1 -> NoDup (foldl group_step m es).*1.
Proof.
  revert m. induction es as [|[t0 p0] es IH]; intros m Hm; [done|].
  apply IH. by apply tags_map_append_NoDup.
Qed.

Lemma group_get t m (es : list (str * Page)) :
  t ∈ m.*1 \/ t ∈ es.*1 ->
  tags_map_get t (foldl group_step m es)
  = Some (default [] (tags_map_get t m) ++ (filter (fun e => e.1 = t) es).*2).
Proof.
  revert m. induction es as [|[t0 p0] es IH]; intros m Hin; cbn [foldl].
  - destruct Hin as [Hin|Hin]; [|by apply elem_of_nil in Hin].
    apply tags_map_get_is_Some in Hin as [ps ->]. simpl.
    by rewrite app_nil_r.
  - rewrite IH.
    + unfold group_step. simpl. rewrite tags_map_get_append, filter_cons. simpl.
      destruct (decide (t = t0)) as [->|Hne].
      * rewrite decide_True by done. simpl. by rewrite <- (assoc_L (++)).
      * by rewrite decide_False by congruence.
    + unfold group_step. simpl. rewrite tags_map_append_keys.
      rewrite fmap_cons, elem_of_cons in Hin. simpl in Hin. tauto.
Qed.

Lemma elem_of_tag_pairs t p pages :
  (t, p) ∈ tag_pairs pages <-> p ∈ pages /\ t ∈ tags p.
Proof.
  unfold tag_pairs. rewrite list_elem_of_bind. split.
  - intros (p' & (t' & [= -> ->] & Ht)%list_elem_of_fmap & Hp). done.
  - intros [Hp Ht]. exists p. split; [|done].
    apply list_elem_of_fmap. by exists t.
Qed.

Lemma elem_of_tag_pairs_keys t pages :
  t ∈ (tag_pairs pages).*1 <-> exists p, p ∈ pages /\ t ∈ tags p.
Proof.
  rewrite list_elem_of_fmap. split.
  - intros ([t' p] & -> & Hin). exists p. by apply elem_of_tag_pairs.
  - intros (p & Hp). exists (t, p). split; [done|]. by apply elem_of_tag_pairs.
Qed.

Lemma elem_of_carrying t p pages :
  p ∈ carrying t pages <-> p ∈ pages /\ t ∈ tags p.
Proof.
  unfold carrying. rewrite list_elem_of_fmap. split.
  - intros ([t' p'] & -> & [Ht Hin]%list_elem_of_filter). simpl in *. subst t'.
    by apply elem_of_tag_pairs.
  - intros Hp. exists (t, p). split; [done|]. apply list_elem_of_filter.
    split; [done|]. by apply elem_of_tag_pairs.
Qed.


Lemma tag_documents_map pages :
  tag_documents pages = doc_of <$> tags_map_of pages.
Proof.
  unfold tag_documents. apply map_ext. by intros [t ps].
Qed.

Global Instance html_name_inj : Inj (=) (=) (fun t : str => t ++ u ".html").
Proof. intros t t' H. by apply app_inv_tail in H. Qed.


Lemma tags_map_of_NoDup pages : NoDup (tags_map_of pages).*1.
Proof. rewrite tags_map_of_pairs. apply group_NoDup. constructor. Qed.

Lemma tags_map_of_keys t pages :
  t ∈ (tags_map_of pages).*1 <-> exists p, p ∈ pages /\ t ∈ tags p.
Proof.
  rewrite tags_map_of_pairs, group_keys, elem_of_tag_pairs_keys.
  rewrite fmap_nil, elem_of_nil. tauto.
Qed.

Lemma tags_map_of_elem_of t ps pages :
  (t, ps) ∈ tags_map_of pages <->
  (exists p, p ∈ pages /\ t ∈ tags p) /\ ps = carrying t pages.
Proof.
  rewrite tags_map_get_elem_of by apply tags_map_of_NoDup.
  rewrite <- tags_map_of_keys. split.
  - intros Hget.
    assert (Hin : t ∈ (tags_map_of pages).*1).
    { apply list_elem_of_fmap. exists (t, ps). split; [done|].
      by apply tags_map_get_elem_of; [apply tags_map_of_NoDup|]. }
    split; [done|]. rewrite tags_map_of_pairs in Hget, Hin.
    rewrite group_get in Hget by (by apply group_keys in Hin).
    by injection Hget as <-.
  - intros [Hin ->]. rewrite tags_map_of_pairs in *.
    rewrite group_get by (by apply group_keys in Hin). done.
Qed.

End TagFacts.

(** * update_site.py: the run *)

Section RunFacts.

Variable lower : str -> str.
Variable fromtimestamp : Z -> N * N * N.

Lemma M_bind_unfold {A B} (c : M A) (k : A -> M B) s :
  (c ≫= k) s
  = match c s with
    | (s', Some x) => k x s'
    | (s', None) => (s', None)
    end.
Proof. reflexivity. Qed.

Lemma plain_tags_documents pages :
  plain_tags pages = true ->
  Forall (fun d => plain_name d.1 = true) (tag_documents pages).
Proof.
  intros Hp. apply Forall_forall. intros [name html] Hin.
  rewrite tag_documents_map in Hin.
  apply list_elem_of_fmap in Hin as ([t ps] & Heq & Hin).
  unfold doc_of in Heq. cbn [fst snd] in Heq. injection Heq as -> ->.
  apply tags_map_of_elem_of in Hin as [(p & Hpin & Ht) _]. cbn [fst].
  unfold plain_tags in Hp. rewrite forallb_forall in Hp.
  specialize (Hp p (proj1 (list_elem_of_In _ _) Hpin)).
  rewrite forallb_forall in Hp. apply Hp. by apply list_elem_of_In.
Qed.

Lemma for_each_cons {A} (body : A -> M unit) x r s :
  for_each body (x :: r) s
  = match body x s with
    | (s', Some _) => for_each body r s'
    | (s', None) => (s', None)
    end.
Proof. reflexivity. Qed.

Lemma write_tag_page_plain name html s :
  plain_name name = true ->
  write_tag_page (name, html) s
  = ({| fs := with_tag_dir (<[name := html]> (tag_dir (fs s))) (fs s);
        console := (u "Updated tag page " ++ TAGS_DIR ++ u "/" ++ name) :: console s;
        written := (TAGS_DIR ++ u "/" ++ name, html) :: written s |}, Some ()).
Proof.
  intros Hname. unfold write_tag_page, write_tag. cbn [fst snd].
  rewrite Hname. reflexivity.
Qed.


Lemma generate_index_html_run now pages s :
  generate_index_html now pages s
  = ({| fs := with_index (index_html pages (strftime_updated now)) (fs s);
        console := (u "Updated " ++ INDEX_FILE) :: console s;
        written := (INDEX_FILE, index_html pages (strftime_updated now))
                   :: written s |}, Some ()).
Proof. reflexivity. Qed.

Lemma generate_sitemap_xml_run pages s :
  generate_sitemap_xml pages s
  = ({| fs := with_sitemap (sitemap_xml pages (glob_html (tag_dir (fs s)))) (fs s);
        console := (u "Updated " ++ SITEMAP_FILE) :: console s;
        written := (SITEMAP_FILE, sitemap_xml pages (glob_html (tag_dir (fs s))))
                   :: written s |}, Some ()).
Proof. reflexivity. Qed.

Lemma generate_tag_pages_unfold pages s :
  generate_tag_pages pages s = for_each write_tag_page (tag_documents pages) s.
Proof. reflexivity. Qed.

(** The tag loop over plain names: every document is written into the tag
    directory and reported. *)
Lemma generate_tag_pages_plain pages s :
  plain_tags pages = true ->
  generate_tag_pages pages s
  = ({| fs := with_tag_dir
               (foldl insert_entry (tag_dir (fs s)) (tag_documents pages)) (fs s);
        console := reverse (tag_prints (tag_documents pages)) ++ console s;
        written := reverse (tag_writes (tag_documents pages)) ++ written s |},
     Some ()).
Proof.
  intros Hp%plain_tags_documents. rewrite generate_tag_pages_unfold.
  revert s. induction Hp as [|[name html] docs Hname _ IH]; intros s.
  - by destruct s as [[] ? ?].
  - rewrite for_each_cons, write_tag_page_plain, IH by exact Hname.
    cbn [fs console written tag_dir with_tag_dir pages_is_dir walk
         index_file sitemap_file foldl].
    unfold tag_prints, tag_writes. rewrite !fmap_cons, !reverse_cons.
    rewrite <- !(assoc_L (++)). reflexivity.
Qed.


Lemma main_unfold now s :
  main lower fromtimestamp now s
  = if negb (pages_is_dir (fs s)) then
      print (u "ERROR: " ++ PAGES_DIR ++ u " ディレクトリがありません。") s
    else
      let pages := collect_pages lower fromtimestamp (walk (fs s)) in
      match generate_tag_pages pages
              (generate_index_html now pages
                 (print (u "Found " ++ Py.str_of_N (N.of_nat (length pages))
                         ++ u " pages.") s).1).1 with
      | (s', Some _) => generate_sitemap_xml pages s'
      | (s', None) => (s', None)
      end.
Proof.
  unfold main. rewrite M_bind_unfold. cbn [get_fs].
  destruct (negb (pages_is_dir (fs s))); reflexivity.
Qed.

Lemma run_plain now w :
  pages_is_dir w = true ->
  plain_tags (collect_pages lower fromtimestamp (walk w)) = true ->
  run lower fromtimestamp now w = (final_state lower fromtimestamp now w, Some ()).
Proof.
  intros Hdir Hp. unfold run. rewrite main_unfold. cbn [fs].
  rewrite Hdir. cbn [negb]. cbv zeta.
  rewrite generate_tag_pages_plain by exact Hp.
  rewrite generate_sitemap_xml_run, generate_index_html_run.
  cbn [print fst fs console written with_index with_tag_dir with_sitemap
       tag_dir pages_is_dir walk index_file sitemap_file].
  unfold final_state. reflexivity.
Qed.



End RunFacts.

(** * update_site.py: the documents of a run *)

Section DirectoryFacts.










Lemma elem_of_tag_documents t pages :
  (exists p, p ∈ pages /\ t ∈ tags p) ->
  (t ++ u ".html", tag_html t (Py.sort date true (carrying t pages)))
    ∈ tag_documents pages.
Proof.
  intros Ht. rewrite tag_documents_map. apply list_elem_of_fmap.
  exists (t, carrying t pages). split; [done|].
  by apply tags_map_of_elem_of.
Qed.



End DirectoryFacts.

Section RunTheorems.

Variable lower : str -> str.
Variable fromtimestamp : Z -> N * N * N.






End RunTheorems.

(** ** The statements at concrete worlds *)







(** * Further properties of the scripts *)

(** ** Trimming, splitting and joining *)

Section TrimFacts.

Lemma lstrip_starts_clean (s : str) : starts_clean (Py.lstrip s).
Proof.
  induction s as [|c s IH]; [done|]. cbn [Py.lstrip].
  destruct (Py.isspace c) eqn:Hc; [done|]. exact Hc.
Qed.

Lemma lstrip_clean (s : str) : starts_clean s -> Py.lstrip s = s.
Proof. destruct s as [|c s]; [done|]. cbn. by intros ->. Qed.

(** What [rstrip] takes off is white space at the end. *)
Lemma rstrip_split (s : str) :
  exists ws, s = Py.rstrip s ++ ws /\ Forall (fun c => Py.isspace c = true) ws.
Proof.
  unfold Py.rstrip. destruct (lstrip_split (reverse s)) as (ws & Hs & Hws).
  exists (reverse ws). split; [|by apply Forall_reverse].
  rewrite <- reverse_app, <- Hs. by rewrite reverse_involutive.
Qed.

Lemma rstrip_starts_clean (s : str) : starts_clean s -> starts_clean (Py.rstrip s).
Proof.
  destruct (rstrip_split s) as (ws & Hs & _).
  destruct (Py.rstrip s) as [|c r]; [done|]. rewrite Hs. done.
Qed.

Lemma rstrip_clean (s : str) : starts_clean (reverse s) -> Py.rstrip s = s.
Proof.
  intros H. unfold Py.rstrip. by rewrite lstrip_clean, reverse_involutive.
Qed.

Lemma strip_clean (s : str) :
  starts_clean (Py.strip s) /\ starts_clean (reverse (Py.strip s)).
Proof.
  unfold Py.strip. split.
  - apply rstrip_starts_clean, lstrip_starts_clean.
  - unfold Py.rstrip. rewrite reverse_involutive. apply lstrip_starts_clean.
Qed.

(** Trimming twice is trimming once. *)
Lemma strip_idemp (s : str) : Py.strip (Py.strip s) = Py.strip s.
Proof.
  destruct (strip_clean s) as [H1 H2].
  unfold Py.strip at 1. by rewrite lstrip_clean, rstrip_clean.
Qed.

(** A trimmed text is a part of the text. *)
Lemma strip_split (s : str) :
  exists a b, s = a ++ Py.strip s ++ b.
Proof.
  destruct (lstrip_split s) as (a & Ha & _).
  destruct (rstrip_split (Py.lstrip s)) as (b & Hb & _).
  exists a, b. unfold Py.strip. by rewrite <- Hb.
Qed.

Lemma strip_not_elem_of (c : N) (s : str) : c ∉ s -> c ∉ Py.strip s.
Proof.
  destruct (strip_split s) as (a & b & Hs). rewrite Hs at 1.
  rewrite !not_elem_of_app. tauto.
Qed.

Lemma in_str_head (x s : str) :
  Py.startswith x s = true -> Py.in_str x s = true.
Proof. destruct s; cbn [Py.in_str]; by intros ->. Qed.

Lemma in_str_app (x a b : str) : Py.in_str x (a ++ x ++ b) = true.
Proof.
  induction a as [|c a IH].
  - cbn [app]. apply in_str_head, startswith_app.
  - cbn [app Py.in_str]. rewrite IH. apply orb_true_r.
Qed.




(** A text without the separator is a single piece. *)
Lemma split_absent (sep : N) (s : str) : sep ∉ s -> Py.split sep s = [s].
Proof.
  induction s as [|c s IH]; [done|].
  intros [Hc Hs]%not_elem_of_cons. cbn [Py.split].
  destruct (N.eqb_spec c sep) as [->|_]; [done|]. by rewrite IH.
Qed.

Lemma split_app (sep : N) (p rest : str) :
  sep ∉ p -> Py.split sep (p ++ sep :: rest) = p :: Py.split sep rest.
Proof.
  induction p as [|c p IH]; intros Hp.
  - cbn [app Py.split]. by rewrite N.eqb_refl.
  - apply not_elem_of_cons in Hp as [Hc Hp]. cbn [app Py.split].
    destruct (N.eqb_spec c sep) as [->|_]; [done|]. by rewrite IH.
Qed.

(** Splitting what was joined gives the pieces back. *)
Lemma split_join_pieces (sep : N) (l : list str) :
  l <> [] -> Forall (fun p => sep ∉ p) l ->
  Py.split sep (Py.join [sep] l) = l.
Proof.
  intros Hne Hl. induction Hl as [|p l Hp Hl IH]; [done|].
  destruct l as [|q l].
  - cbn [Py.join]. by apply split_absent.
  - change (Py.join [sep] (p :: q :: l)) with (p ++ sep :: Py.join [sep] (q :: l)).
    rewrite split_app by done. f_equal. by apply IH.
Qed.

End TrimFacts.

(** ** What the pages are made of *)

Section PageProperties.

Variable lower : str -> str.
Variable fromtimestamp : Z -> N * N * N.

(** X1.  The relative path of a page splits at its slashes into the
    directories and the name of its file (none of which holds a slash), so
    that two files with one URL, or one URL path, are one file. *)
Theorem url_path_injective (f1 f2 : File) :
  Forall (fun c => 47 ∉ c) (f_dir f1 ++ [f_name f1]) ->
  Forall (fun c => 47 ∉ c) (f_dir f2 ++ [f_name f2]) ->
  Py.split 47 (rel_path (get_page_info lower fromtimestamp f1))
  = f_dir f1 ++ [f_name f1] /\
  (url (get_page_info lower fromtimestamp f1)
   = url (get_page_info lower fromtimestamp f2) \/
   url_path (get_page_info lower fromtimestamp f1)
   = url_path (get_page_info lower fromtimestamp f2) ->
   f_dir f1 = f_dir f2 /\ f_name f1 = f_name f2).
Proof.
  intros H1 H2.
  assert (Hsplit : forall f, Forall (fun c => 47 ∉ c) (f_dir f ++ [f_name f]) ->
            Py.split 47 (rel_path (get_page_info lower fromtimestamp f))
            = f_dir f ++ [f_name f]).
  { intros f Hf. unfold get_page_info. cbn [rel_path].
    apply (split_join_pieces 47); [by destruct (f_dir f)|done]. }
  split; [by apply Hsplit|].
  intros Hurl.
  assert (Hrel : rel_path (get_page_info lower fromtimestamp f1)
                 = rel_path (get_page_info lower fromtimestamp f2)).
  { unfold get_page_info in *. cbn [url url_path rel_path] in *.
    destruct Hurl as [Hurl|Hurl]; repeat apply app_inv_head in Hurl; done. }
  apply (f_equal (Py.split 47)) in Hrel.
  rewrite !Hsplit in Hrel by done.
  by apply app_inj_tail in Hrel.
Qed.

(** X2.  The values of the metadata mapping are trimmed, so that the page
    takes its date, its description and its category from the mapping as
    they stand; a [date] entry, even an empty one, is never replaced by
    the time of modification. *)
Theorem metadata_values_trimmed (f : File) :
  let meta := parse_meta_from_html lower (f_text f) in
  let p := get_page_info lower fromtimestamp f in
  (forall k v, meta !! k = Some v -> Py.strip v = v) /\
  (forall v, meta !! u "date" = Some v -> date p = v) /\
  (forall v, meta !! u "description" = Some v -> description p = v) /\
  (forall v, meta !! u "category" = Some v -> category p = v).
Proof.
  intros meta p.
  assert (Hv : forall k v, meta !! k = Some v -> Py.strip v = v).
  { intros k v. unfold meta, parse_meta_from_html.
    destruct (search_meta (f_text f)) as [block|]; [|by rewrite lookup_empty].
    intros (line & key & value & _ & _ & _ & _ & ->)%parse_block_inv.
    apply strip_idemp. }
  split_and!; [done| | |]; intros v H; unfold p, get_page_info;
    cbn [date description category]; fold meta; rewrite H; [|done..].
  by apply (Hv (u "date")).
Qed.

(** X3.  No tag of a page is empty, holds a comma, or begins or ends with
    white space. *)
Theorem page_tags_clean (f : File) (t : str) :
  t ∈ tags (get_page_info lower fromtimestamp f) ->
  t <> [] /\ (44 ∉ t) /\ Py.strip t = t.
Proof.
  unfold get_page_info. cbn [tags].
  destruct (parse_meta_from_html lower (f_text f) !! u "tags") as [v|];
    [|by intros ?%elem_of_nil].
  rewrite split_tags_filter.
  intros [Hne (piece & -> & Hin)%list_elem_of_fmap]%list_elem_of_filter.
  split_and!; [done| |apply strip_idemp].
  apply strip_not_elem_of.
  pose proof (split_no_sep 44 v) as Hall. rewrite Forall_forall in Hall.
  by apply Hall.
Qed.

(** X4.  A text in which no comment opens, or none closes, has no
    metadata: a block that is not closed is not read. *)
Theorem unterminated_block_ignored (text : str) :
  Py.in_str (u "<!--") text = false \/ Py.in_str (u "-->") text = false ->
  parse_meta_from_html lower text = ∅.
Proof.
  intros Hno. unfold parse_meta_from_html.
  destruct (search_meta text) as [block|] eqn:Hs; [exfalso|done].
  apply search_meta_Some in Hs as (pre & (s & rest & -> & Hb) & _).
  destruct Hb as (ws & m & -> & _ & _ & _).
  destruct Hno as [Hno|Hno].
  - by rewrite in_str_app in Hno.
  - rewrite !(assoc_L (++) _ _ (u "-->" ++ rest)) in Hno.
    by rewrite in_str_app in Hno.
Qed.

End PageProperties.

Lemma url_path_injective_witness :
  Py.split 47 (rel_path (get_page_info lower_ascii one_day plain_file))
  = f_dir plain_file ++ [f_name plain_file].
Proof.
  apply (url_path_injective lower_ascii one_day plain_file tagged_file).
  - repeat constructor; apply not_elem_of_contains; vm_compute; reflexivity.
  - repeat constructor; apply not_elem_of_contains; vm_compute; reflexivity.
Defined.

Lemma metadata_values_trimmed_witness :
  date (get_page_info lower_ascii one_day tagged_file) = u "2024-01-01".
Proof.
  apply (proj1 (proj2 (metadata_values_trimmed lower_ascii one_day tagged_file))).
  vm_compute. reflexivity.
Defined.

Lemma page_tags_clean_witness :
  u "b" <> [] /\ (44 ∉ u "b") /\ Py.strip (u "b") = u "b".
Proof.
  apply (page_tags_clean lower_ascii one_day tagged_file).
  apply list_elem_of_In. vm_compute. right. left. reflexivity.
Defined.

Lemma unterminated_block_ignored_witness :
  parse_meta_from_html lower_ascii (u "<!-- META
title: never closed") = ∅.
Proof.
  apply unterminated_block_ignored. right. vm_compute. reflexivity.
Defined.

(** ** Dates as sort keys *)

Section DateOrder.









End DateOrder.


(** ** The tag loop and the run, whether they complete or not *)

Section LoopFacts.

Variable lower : str -> str.
Variable fromtimestamp : Z -> N * N * N.

Lemma sort_reverse_id {A} (key : A -> str) (l : list A) :
  StronglySorted (flip (key_le key)) l -> Py.sort key true l = l.
Proof.
  intros Hl. simpl. rewrite <- (reverse_involutive l) at 2. f_equal.
  apply StronglySorted_reverse in Hl.
  induction Hl as [|x m Hm IH Hx]; [done|].
  simpl. rewrite IH. destruct m as [|y m]; [done|]. simpl.
  apply Forall_cons in Hx as [Hx _]. unfold flip, key_le, str_le in Hx.
  by rewrite Hx.
Qed.

Lemma StronglySorted_copies {A} (R : relation A) (x : A) (l : list A) :
  (forall y, R y y) -> Forall (eq x) l -> StronglySorted R l.
Proof.
  intros HR. induction 1 as [|y l Hy Hl IH]; constructor; [done|]. subst y.
  eapply Forall_impl; [exact Hl|]. intros ? <-. apply HR.
Qed.

Lemma carrying_cons (t : str) (p : Page) (pages : list Page) :
  exists copies, carrying t (p :: pages) = copies ++ carrying t pages /\
                 Forall (eq p) copies.
Proof.
  unfold carrying, tag_pairs. rewrite bind_cons, filter_app, fmap_app.
  eexists. split; [done|]. apply Forall_forall. intros q Hq.
  apply list_elem_of_fmap in Hq as ([t' q'] & -> & Hq).
  apply list_elem_of_filter in Hq as [_ Hq].
  by apply list_elem_of_fmap in Hq as (t'' & [= _ ->] & _).
Qed.

(** The pages that carry a tag stand in the order of the pages. *)
Lemma carrying_sorted (R : relation Page) (t : str) (pages : list Page) :
  (forall p, R p p) ->
  StronglySorted R pages -> StronglySorted R (carrying t pages).
Proof.
  intros HR. induction 1 as [|p pages Hs IH Hp]; [constructor|].
  destruct (carrying_cons t p pages) as (copies & -> & Hc).
  apply StronglySorted_app. split_and!; [|by apply (StronglySorted_copies R p)|done].
  intros x1 x2 H1 H2. rewrite Forall_forall in Hc, Hp.
  rewrite <- (Hc x1 H1). apply Hp.
  by apply elem_of_carrying in H2 as [H2 _].
Qed.

(** X6.  On the pages that [collect_pages] returns, the sort of the tag
    loop changes nothing: the document of a tag lists the pages that carry
    it in the order in which the index has them. *)
Theorem tag_document_in_index_order (files : list File) (t : str) :
  let pages := collect_pages lower fromtimestamp files in
  Py.sort date true (carrying t pages) = carrying t pages /\
  ((exists p, p ∈ pages /\ t ∈ tags p) ->
   (t ++ u ".html", tag_html t (carrying t pages)) ∈ tag_documents pages).
Proof.
  intros pages.
  assert (Hid : Py.sort date true (carrying t pages) = carrying t pages).
  { apply sort_reverse_id.
    apply (carrying_sorted (flip (key_le date))).
    - intros p. unfold flip, key_le. reflexivity.
    - apply (sort_reverse_sorted date). }
  split; [done|]. intros Ht. rewrite <- Hid at 1. by apply elem_of_tag_documents.
Qed.





End LoopFacts.

Section RunProperties.

Variable lower : str -> str.
Variable fromtimestamp : Z -> N * N * N.








(** X10.  A content root without any [.html] file: the run completes,
    prints a count of 0, writes the index without articles and the
    sitemap, and writes no tag document; the sitemap still lists the
    [.html] files that the tag directory holds. *)
Theorem empty_corpus_run (now : utc_time) (w : World) :
  pages_is_dir w = true ->
  List.filter (is_html lower) (walk w) = [] ->
  let r := run lower fromtimestamp now w in
  r.2 = Some () /\
  written r.1
  = [(SITEMAP_FILE, sitemap_xml [] (glob_html (tag_dir w)));
     (INDEX_FILE, index_html [] (strftime_updated now))] /\
  console r.1
  = [u "Updated " ++ SITEMAP_FILE; u "Updated " ++ INDEX_FILE;
     u "Found 0 pages."] /\
  tag_dir (fs r.1) = tag_dir w /\
  sitemap_locs [] (glob_html (tag_dir w))
  = (BASE_URL ++ u "/")
    :: ((fun name => BASE_URL ++ u "/" ++ TAGS_DIR ++ u "/" ++ name)
          <$> glob_html (tag_dir w)).
Proof.
  intros Hdir Hnone r.
  assert (Hpages : collect_pages lower fromtimestamp (walk w) = []).
  { unfold collect_pages, discovered. by rewrite Hnone. }
  unfold r. rewrite run_plain by (by rewrite ?Hpages).
  unfold final_state. rewrite Hpages.
  cbn [fst snd written console fs tag_dir length].
  split_and!; reflexivity.
Qed.

End RunProperties.

Lemma tag_document_in_index_order_witness :
  let pages := collect_pages lower_ascii one_day [tagged_file] in
  (u "b" ++ u ".html", tag_html (u "b") (carrying (u "b") pages))
  ∈ tag_documents pages.
Proof.
  apply (proj2 (tag_document_in_index_order lower_ascii one_day
                  [tagged_file] (u "b"))).
  exists (get_page_info lower_ascii one_day tagged_file).
  split; apply list_elem_of_In; vm_compute.
  - left. reflexivity.
  - right. left. reflexivity.
Defined.




Lemma empty_corpus_run_witness :
  (run lower_ascii one_day noon
     {| pages_is_dir := true; walk := []; tag_dir := ∅;
        index_file := None; sitemap_file := None |}).2 = Some ().
Proof.
  apply (empty_corpus_run lower_ascii one_day noon); reflexivity.
Defined.

(** ** generate.py: the rows, the index and the sitemap *)

Section GenerateProperties.
Import Generate.

Lemma row_ok_spec (row : Row) :
  row_ok row = true <->
  is_Some (getitem (u "slug") (cells row)) /\
  is_Some (getitem (u "title") (cells row)) /\ extra row = [].
Proof.
  unfold row_ok. rewrite !andb_true_iff, !bool_decide_eq_true. tauto.
Qed.

Lemma generate_row_ok (template : str) (row : Row) :
  row_ok row = true ->
  generate_row template row = (Some (row_file template row), Some (row_page row)).
Proof.
  intros ([slug Hs] & [title Ht] & He)%row_ok_spec.
  unfold generate_row, row_file, row_name, row_page, row_slug, row_title.
  by rewrite Hs, Ht, He.
Qed.

Lemma generate_row_bad (template : str) (row : Row) :
  row_ok row = false ->
  generate_row template row
  = (if bool_decide (is_Some (getitem (u "slug") (cells row))) &&
        bool_decide (extra row = [])
     then Some (row_file template row) else None, None).
Proof.
  intros Hbad. unfold generate_row, row_file, row_name, row_slug.
  destruct (getitem (u "slug") (cells row)) as [slug|] eqn:Hs.
  - rewrite bool_decide_eq_true_2 by eauto. cbn [andb].
    destruct (extra row) as [|e es] eqn:He; [|done].
    destruct (getitem (u "title") (cells row)) as [title|] eqn:Ht; [|done].
    exfalso. assert (row_ok row = true); [|congruence].
    apply row_ok_spec. rewrite Hs, Ht. eauto.
  - rewrite bool_decide_eq_false_2; [done|]. by intros [? ?].
Qed.

Lemma generate_rows_ok (template : str) (rows : list Row) :
  forallb row_ok rows = true ->
  generate_rows template rows
  = (row_file template <$> rows, Some (row_page <$> rows)).
Proof.
  induction rows as [|row rows IH]; [done|].
  cbn [forallb]. intros [Hrow Hrows]%andb_true_iff.
  cbn [generate_rows]. rewrite generate_row_ok, IH by done. done.
Qed.

Lemma generate_rows_stop (template : str) (good : list Row) (bad : Row) (rest : list Row) :
  forallb row_ok good = true -> row_ok bad = false ->
  generate_rows template (good ++ bad :: rest)
  = ((row_file template <$> good) ++ option_list (generate_row template bad).1,
     None).
Proof.
  intros Hgood Hbad. induction good as [|row good IH].
  - cbn [app generate_rows fmap list_fmap].
    rewrite (generate_row_bad _ _ Hbad). done.
  - cbn [forallb] in Hgood. apply andb_true_iff in Hgood as [Hrow Hgood].
    cbn [app generate_rows]. rewrite generate_row_ok, IH by done. done.
Qed.

Lemma generate_rows_returns (template : str) (rows : list Row) :
  (generate_rows template rows).2 <> None -> forallb row_ok rows = true.
Proof.
  induction rows as [|row rows IH]; [done|].
  cbn [generate_rows forallb].
  destruct (row_ok row) eqn:Hrow.
  - rewrite generate_row_ok by done.
    destruct (generate_rows template rows) as [files [ps|]]; cbn in *.
    + intros _. by apply IH.
    + done.
  - rewrite (generate_row_bad _ _ Hrow). cbn. done.
Qed.

Lemma generate_all_rows (template : str) (rows : list Row) :
  forallb row_ok rows = true ->
  generate template rows
  = ((row_file template <$> rows) ++
     [(u "index.html", rows_index_html (row_page <$> rows));
      (u "sitemap.xml", rows_sitemap_xml (row_page <$> rows))],
     Some (Py.str_of_N (N.of_nat (length rows)) ++ u " ページを生成しました。")).
Proof.
  intros H. unfold generate. rewrite generate_rows_ok by done.
  by rewrite length_fmap.
Qed.

(** X11.  With file names that are entries of the output directory, the
    script completes exactly when every row has the columns [slug] and
    [title] and is not longer than the header.  It then writes one file for
    each row, in order, then [index.html] and [sitemap.xml], whose entries
    are the rows in order, and prints the number of rows. *)
Theorem generate_completes (template : str) (rows : list Row) :
  plain_rows rows = true ->
  ((generate template rows).2 <> None <-> forallb row_ok rows = true) /\
  (forallb row_ok rows = true ->
   generate template rows
   = ((row_file template <$> rows) ++
      [(u "index.html", rows_index_html (row_page <$> rows));
       (u "sitemap.xml", rows_sitemap_xml (row_page <$> rows))],
      Some (Py.str_of_N (N.of_nat (length rows)) ++ u " ページを生成しました。"))).
Proof.
  intros _. split; [|apply generate_all_rows]. split.
  - intros H. apply (generate_rows_returns template). unfold generate in H.
    by destruct (generate_rows template rows) as [files [ps|]].
  - intros H. by rewrite generate_all_rows.
Qed.

(** X12.  At the first row that lacks [slug] or [title], or is longer
    than the header, the script raises: the files of the rows before it
    are written, the file of the row itself only if the row has a [slug]
    and is not too long (the missing [title] is noticed after the write),
    and nothing else, neither for the rows after it nor index or
    sitemap. *)
Theorem generate_stops_at_bad_row
    (template : str) (good : list Row) (bad : Row) (rest : list Row) :
  plain_rows (good ++ [bad]) = true ->
  forallb row_ok good = true -> row_ok bad = false ->
  generate template (good ++ bad :: rest)
  = ((row_file template <$> good) ++
     (if bool_decide (is_Some (getitem (u "slug") (cells bad))) &&
         bool_decide (extra bad = [])
      then [row_file template bad] else []),
     None).
Proof.
  intros _ Hgood Hbad. unfold generate.
  rewrite generate_rows_stop, (generate_row_bad _ _ Hbad) by done.
  cbn [fst]. by destruct (_ && _).
Qed.

Lemma html_name_not_sitemap (x : str) : x ++ u ".html" <> u "sitemap.xml".
Proof.
  intros H. apply (f_equal reverse) in H. rewrite reverse_app in H.
  vm_compute in H. discriminate.
Qed.

Lemma insert_entry_pair (m : gmap str str) (k v : str) :
  insert_entry m (k, v) = <[k := v]> m.
Proof. done. Qed.

(** X13.  When the script completes, with file names that are entries of
    the output directory, the file of a name holds what was written to it
    last: [index.html] is the index even if a row has the slug [index],
    and the file of a slug is the document of the last row with that
    slug. *)
Theorem generate_last_writer_wins (template : str) (rows : list Row) :
  plain_rows rows = true ->
  forallb row_ok rows = true ->
  let files := files_after (generate template rows).1 in
  files !! u "index.html" = Some (rows_index_html (row_page <$> rows)) /\
  files !! u "sitemap.xml" = Some (rows_sitemap_xml (row_page <$> rows)) /\
  (forall l1 row l2,
     rows = l1 ++ row :: l2 ->
     row_name row <> u "index.html" ->
     (forall row', row' ∈ l2 -> row_name row' <> row_name row) ->
     files !! row_name row = Some (substitute template (cells row))).
Proof.
  intros _ Hok files. unfold files.
  rewrite (generate_all_rows template rows Hok). cbn [fst].
  unfold files_after. rewrite foldl_app. cbn [foldl].
  rewrite !insert_entry_pair.
  split_and!.
  - rewrite lookup_insert_ne by done. by rewrite lookup_insert_eq.
  - by rewrite lookup_insert_eq.
  - intros l1 row l2 -> Hidx Hlater.
    rewrite lookup_insert_ne by (symmetry; apply html_name_not_sitemap).
    rewrite lookup_insert_ne by done.
    rewrite fmap_app, fmap_cons.
    apply (foldl_insert_last _ _ _ (row_name row)).
    intros (d & Hd & (row' & -> & Hin)%list_elem_of_fmap)%list_elem_of_fmap.
    by apply (Hlater row' Hin).
Qed.

Lemma replace_from_absent (old new s : str) :
  Py.in_str old s = false -> Py.replace_from 0 old new s = s.
Proof.
  induction s as [|c s IH]; [done|].
  cbn [Py.in_str]. intros [H1 H2]%orb_false_elim.
  cbn [Py.replace_from]. by rewrite H1, IH.
Qed.

Lemma replace_absent (old new s : str) :
  Py.in_str old s = false -> Py.replace old new s = s.
Proof.
  destruct old as [|x p]; [by destruct s|]. apply replace_from_absent.
Qed.

Lemma substitute_absent (template : str) (cs : list (str * option str)) :
  (forall k v, (k, v) ∈ cs -> Py.in_str (placeholder k) template = false) ->
  substitute template cs = template.
Proof.
  unfold substitute. induction cs as [|[k v] cs IH]; [done|]. intros Hno.
  cbn [foldl]. rewrite replace_absent by (eapply Hno; left).
  apply IH. intros k' v' Hin. eapply Hno. by right.
Qed.

(** X14.  A template, of whatever form, in which the placeholder of no
    column of the row occurs is written out as it is. *)
Theorem substitute_without_placeholders
    (template : str) (row : Row) (slug : option str) :
  (forall k v, (k, v) ∈ cells row -> Py.in_str (placeholder k) template = false) ->
  getitem (u "slug") (cells row) = Some slug -> extra row = [] ->
  (generate_row template row).1 = Some (fmt slug ++ u ".html", template).
Proof.
  intros Hno Hslug Hextra. rewrite (generate_row_file _ _ slug) by done.
  by rewrite substitute_absent.
Qed.

End GenerateProperties.

Lemma generate_completes_witness :
  (Generate.generate Generate.scenario_template [Generate.scenario_row]).2
  = Some (Py.str_of_N (N.of_nat (length [Generate.scenario_row]))
          ++ u " ページを生成しました。").
Proof.
  rewrite (proj2 (generate_completes Generate.scenario_template
                    [Generate.scenario_row] eq_refl)); reflexivity.
Defined.

Lemma generate_stops_at_bad_row_witness :
  (Generate.generate Generate.scenario_template
     ([Generate.scenario_row] ++ Generate.short_row :: [Generate.scenario_row])).2 = None.
Proof.
  rewrite (generate_stops_at_bad_row Generate.scenario_template
             [Generate.scenario_row] Generate.short_row [Generate.scenario_row]);
    reflexivity.
Defined.

Lemma generate_last_writer_wins_witness :
  Generate.files_after
    (Generate.generate Generate.scenario_template [Generate.scenario_row]).1
    !! u "index.html"
  = Some (Generate.rows_index_html (Generate.row_page <$> [Generate.scenario_row])).
Proof.
  apply (generate_last_writer_wins Generate.scenario_template
           [Generate.scenario_row]); vm_compute; reflexivity.
Defined.

Lemma substitute_without_placeholders_witness :
  (Generate.generate_row (u "<p>{{missing}}</p>") Generate.short_row).1
  = Some (Generate.fmt (Some (u "bar")) ++ u ".html", u "<p>{{missing}}</p>").
Proof.
  apply (substitute_without_placeholders (u "<p>{{missing}}</p>") Generate.short_row
           (Some (u "bar"))); [|reflexivity..].
  intros k v Hin%list_elem_of_singleton. injection Hin as -> ->.
  vm_compute. reflexivity.
Defined.
